(** * npms-analyzer: the analysis collection engine

    A shallow embedding of

    - [lib/analyze/collect/index.js]
      ([checkRepositoryOwnership], [empty], [collect]) and
    - [lib/analyze/download/util/findPackageDir.js]
      ([isSamePackage], [lookForPackageDir], [findPackageDir])

    together with the small part of JavaScript, Bluebird, lodash and Node's
    [path] module that these two files rely on.

    Promises are modelled by their settled outcome together with the trace of
    the observable effects (registry lookups, file system accesses, log
    records, collector invocations) performed on the way. *)

From Stdlib Require Import ZArith Ascii String.
From stdpp Require Import base strings list gmap fin_maps pretty.

Local Open Scope string_scope.
Local Open Scope list_scope.
Set Warnings "-register-all".

(** * JavaScript values *)

Module JS.

(** JSON-like data: what [JSON.parse], the registry client and the collectors
    hand to the code.  Numbers are restricted to integers; objects are
    association lists of own enumerable properties in insertion order, the
    first binding of a key being the visible one. *)
Inductive value : Type :=
| VUndefined
| VNull
| VBool (b : bool)
| VNum (n : Z)
| VStr (s : string)
| VArr (elems : list value)
| VObj (props : list (string * value)).

Definition object : Type := list (string * value).

(** [o[k]] for an own property of a plain object; absent keys read
    [undefined]. *)
Fixpoint lookup_prop (k : string) (o : object) : value :=
  match o with
  | [] => VUndefined
  | (k', v) :: o' => if String.eqb k k' then v else lookup_prop k o'
  end.

(** [v.k] for a value that is neither [null] nor [undefined], for the data
    properties read by the code ([name], [url], [repository], [error], [code]):
    primitives and arrays have no such property. *)
Definition member (v : value) (k : string) : value :=
  match v with
  | VObj o => lookup_prop k o
  | _ => VUndefined
  end.

(** ToBoolean. *)
Definition truthy (v : value) : bool :=
  match v with
  | VUndefined | VNull => false
  | VBool b => b
  | VNum n => negb (n =? 0)%Z
  | VStr s => negb (String.eqb s "")
  | VArr _ | VObj _ => true
  end.

(** [a === b].  Two objects (or arrays) are strictly equal only when they are
    the same reference; the values compared by the code come from different
    documents, so they never are. *)
Definition strict_eq (a b : value) : bool :=
  match a, b with
  | VUndefined, VUndefined => true
  | VNull, VNull => true
  | VBool x, VBool y => Bool.eqb x y
  | VNum x, VNum y => (x =? y)%Z
  | VStr x, VStr y => String.eqb x y
  | _, _ => false
  end.

(** [a && b] where [b] reads a property of [a]: [v && v.k]. *)
Definition guarded_member (v : value) (k : string) : value :=
  if truthy v then member v k else v.

(** ToString, as used by template literals and by [==] against a string. *)
Fixpoint to_string (v : value) : string :=
  match v with
  | VUndefined => "undefined"
  | VNull => "null"
  | VBool true => "true"
  | VBool false => "false"
  | VNum n => pretty n
  | VStr s => s
  | VArr l =>
      (fix join (l : list value) : string :=
         match l with
         | [] => ""
         | x :: l' =>
             let sx := match x with
                       | VUndefined | VNull => ""
                       | _ => to_string x
                       end in
             match l' with
             | [] => sx
             | _ :: _ => sx +:+ "," +:+ join l'
             end
         end) l
  | VObj _ => "[object Object]"
  end.

(** [v == s] for a string literal [s] that does not denote a number (the two
    literals the code compares against are ['not_found'] and ['ENOENT']):
    numbers and booleans are compared numerically with [NaN], hence differ;
    objects and arrays are compared through their string conversion. *)
Definition loose_eq_string (v : value) (s : string) : bool :=
  match v with
  | VStr s' => String.eqb s' s
  | VArr _ | VObj _ => String.eqb (to_string v) s
  | VUndefined | VNull | VBool _ | VNum _ => false
  end.

(** The [TypeError] raised by reading property [k] of [null] or
    [undefined]. *)
Definition TypeError (v : value) (k : string) : value :=
  VObj [("name", VStr "TypeError");
        ("message", VStr ("Cannot read property '" +:+ k +:+ "' of " +:+ to_string v))].

End JS.

Export JS.

(** * Data model *)

(** A registry maintainer entry; an absent field is [None]
    (it reads [undefined]). *)
Record Maintainer : Type := {
  m_name : option string;
  m_email : option string;
}.

(** A registry document: the package data handed to [collect] and the document
    fetched by [npmNano.getAsync].  [maintainers] is [None] when the document
    has no such field. *)
Record PackageData : Type := {
  pkg_name : string;
  maintainers : option (list Maintainer);
}.

(** The downloaded info ([dir], [packageJson], [downloader]). *)
Record Downloaded : Type := {
  dl_dir : string;
  dl_packageJson : object;
  dl_downloader : string;
}.

(** Observable effects. *)
Inductive event : Type :=
| RegistryGet (name : value)
| LogWarn (packageJson : object) (downloaded : Downloaded) (msg : string)
| LogError (key : string) (err : value)
| LogDebug (err : value) (file : string) (msg : string)
| CollectorCall (key : string)
| Globby (pattern cwd : string)
| LoadJsonFile (file : string).

(** * Promises (Bluebird) *)

Module Bluebird.

Inductive outcome (A : Type) : Type :=
| Fulfilled (a : A)
| Rejected (reason : value).
Arguments Fulfilled {A} a.
Arguments Rejected {A} reason.

(** A settled promise: the effects performed until it settled, and how it
    settled. *)
Definition promise (A : Type) : Type := (list event * outcome A)%type.

Definition resolve {A} (a : A) : promise A := ([], Fulfilled a).
Definition reject {A} (e : value) : promise A := ([], Rejected e).

(** An operation of the outside world that performs [ev] and settles as
    [o]. *)
Definition perform {A} (ev : event) (o : outcome A) : promise A := ([ev], o).

(** A synchronous side effect. *)
Definition emit (ev : event) : promise unit := ([ev], Fulfilled tt).

(** [p.then(f)] *)
Definition then_ {A B} (p : promise A) (f : A -> promise B) : promise B :=
  match p with
  | (tr, Fulfilled a) => let '(tr', o) := f a in (tr ++ tr', o)
  | (tr, Rejected e) => (tr, Rejected e)
  end.

(** [p.tap(f)]: runs [f] on fulfilment and keeps the original value, unless
    [f] itself fails. *)
Definition tap {A} (p : promise A) (f : A -> promise unit) : promise A :=
  then_ p (fun a => then_ (f a) (fun _ => resolve a)).

(** The object predicate of [p.catch({ k: s }, handler)]: the reason must be
    an object whose property [k] is loosely equal to [s]. *)
Definition matches (k s : string) (e : value) : bool :=
  match e with
  | VObj o => loose_eq_string (lookup_prop k o) s
  | _ => false
  end.

(** [p.catch({ k: s }, handler)] *)
Definition catch_where {A} (k s : string) (p : promise A)
    (handler : value -> promise A) : promise A :=
  match p with
  | (tr, Rejected e) =>
      if matches k s e then let '(tr', o) := handler e in (tr ++ tr', o)
      else (tr, Rejected e)
  | _ => p
  end.

(** [p.catch(handler)] *)
Definition catch_all {A} (p : promise A) (handler : value -> promise A)
    : promise A :=
  match p with
  | (tr, Rejected e) => let '(tr', o) := handler e in (tr ++ tr', o)
  | _ => p
  end.

(** [p.reduce(f, init)] on a promise for an array: the elements are visited
    in order, each step waiting for the previous one. *)
Fixpoint reduce_from {A B} (f : B -> A -> promise B) (l : list A) (acc : B)
    : promise B :=
  match l with
  | [] => resolve acc
  | x :: l' => then_ (f acc x) (reduce_from f l')
  end.

Definition reduce {A B} (p : promise (list A)) (f : B -> A -> promise B)
    (init : B) : promise B :=
  then_ p (fun l => reduce_from f l init).

Definition trace {A} (p : promise A) : list event := fst p.
Definition settled {A} (p : promise A) : outcome A := snd p.

End Bluebird.

Export Bluebird.

#[export] Instance promise_ret : MRet promise := @resolve.
#[export] Instance promise_bind : MBind promise := fun A B f p => then_ p f.

(** * lodash *)

Module Lodash.

(** [isEmpty(o)] on a plain object: it has no own enumerable property. *)
Definition isEmpty (o : object) : bool :=
  match o with
  | [] => true
  | _ :: _ => false
  end.

(** [castArrayLikeObject]: anything that is not an array counts as [[]]. *)
Definition castArrayLikeObject {A} (l : option (list A)) : list A :=
  match l with
  | Some l => l
  | None => []
  end.

(** [baseIntersection([array, other], undefined, comparator)]: walks [array],
    keeps a value when it is not yet in the result and is included in
    [other], both by [comparator]; stops once the result has [maxLength]
    elements. *)
Fixpoint baseIntersection {A} (comparator : A -> A -> bool) (maxLength : nat)
    (array other result : list A) : list A :=
  match array with
  | [] => result
  | v :: rest =>
      if (length result <? maxLength)%nat then
        if existsb (comparator v) result then
          baseIntersection comparator maxLength rest other result
        else if existsb (comparator v) other then
          baseIntersection comparator maxLength rest other (result ++ [v])
        else
          baseIntersection comparator maxLength rest other result
      else result
  end.

(** [intersectionWith(array, other, comparator)] *)
Definition intersectionWith {A} (array other : option (list A))
    (comparator : A -> A -> bool) : list A :=
  match array with
  | None => []
  | Some a =>
      let o := castArrayLikeObject other in
      baseIntersection comparator (Nat.min (length a) (length o)) a o []
  end.

(** [pickBy(o)] with the default predicate (identity): keeps the properties
    whose value is truthy. *)
Definition pickBy (o : gmap string value) : gmap string value :=
  filter (fun kv => truthy kv.2 = true) o.

End Lodash.

Export Lodash.

(** * Node's [path] module (POSIX) *)

Module NodePath.

Definition slash : ascii := "/"%char.
Definition is_slash (c : ascii) : bool := Ascii.eqb c slash.

Fixpoint drop_while {A} (p : A -> bool) (l : list A) : list A :=
  match l with
  | [] => []
  | x :: l' => if p x then drop_while p l' else l
  end.

(** [path.dirname(p)]: scanning from the right (the first character is never
    examined), trailing slashes are skipped, then the last component; what is
    left of the slash found there is the result. *)
Definition dirname (p : string) : string :=
  match list_ascii_of_string p with
  | [] => "."
  | c0 :: rest =>
      let hasRoot := is_slash c0 in
      match drop_while (fun c => negb (is_slash c))
              (drop_while is_slash (rev rest)) with
      | [] => if hasRoot then "/" else "."
      | _ :: before =>
          if hasRoot && (length before =? 0)%nat then "//"
          else string_of_list_ascii (c0 :: rev before)
      end
  end.

(** The segments of a path between slashes; [cur] is the current segment,
    reversed. *)
Fixpoint segments_from (cur : list ascii) (cs : list ascii) : list string :=
  match cs with
  | [] => [string_of_list_ascii (rev cur)]
  | c :: cs' =>
      if is_slash c then string_of_list_ascii (rev cur) :: segments_from [] cs'
      else segments_from (c :: cur) cs'
  end.

Definition segments (p : string) : list string :=
  segments_from [] (list_ascii_of_string p).

(** One step of [normalizeString]; [stack] holds the kept segments, last
    first. *)
Definition normalize_step (allowAboveRoot : bool) (stack : list string)
    (seg : string) : list string :=
  if String.eqb seg "" || String.eqb seg "." then stack
  else if String.eqb seg ".." then
    match stack with
    | top :: below =>
        if String.eqb top ".." then
          (if allowAboveRoot then seg :: stack else stack)
        else below
    | [] => if allowAboveRoot then [seg] else []
    end
  else seg :: stack.

Fixpoint join_segments (segs : list string) : string :=
  match segs with
  | [] => ""
  | [s] => s
  | s :: segs' => s +:+ "/" +:+ join_segments segs'
  end.

Definition normalizeString (p : string) (allowAboveRoot : bool) : string :=
  join_segments (rev (fold_left (normalize_step allowAboveRoot) (segments p) [])).

Definition ends_with_slash (p : string) : bool :=
  match rev (list_ascii_of_string p) with
  | c :: _ => is_slash c
  | [] => false
  end.

Definition starts_with_slash (p : string) : bool :=
  match p with
  | String c _ => is_slash c
  | EmptyString => false
  end.

(** [path.normalize(p)] *)
Definition normalize (p : string) : string :=
  if String.eqb p "" then "."
  else
    let isAbsolute := starts_with_slash p in
    let trailingSeparator := ends_with_slash p in
    let body := normalizeString p (negb isAbsolute) in
    if String.eqb body "" then
      (if isAbsolute then "/" else if trailingSeparator then "./" else ".")
    else
      let body := if trailingSeparator then body +:+ "/" else body in
      if isAbsolute then "/" +:+ body else body.

(** [path.join(a, b)]: zero-length arguments are ignored. *)
Definition join (a b : string) : string :=
  if String.eqb a "" then
    (if String.eqb b "" then "." else normalize b)
  else if String.eqb b "" then normalize a
  else normalize (a +:+ "/" +:+ b).

End NodePath.

(** * [lib/analyze/collect/index.js] *)

Module Collect.

(** The npm nano client: its configuration and how a lookup of a document
    settles. *)
Record Nano : Type := {
  config_url : string;
  config_db : string;
  get_outcome : value -> outcome PackageData;
}.

(** [npmNano.getAsync(name)] *)
Definition getAsync (npmNano : Nano) (name : value) : promise PackageData :=
  perform (RegistryGet name) (get_outcome npmNano name).

(** The [options] argument of [collect]; an absent [waitRateLimit] is [None],
    an absent or [null] [githubTokens] is [None]. *)
Record Options : Type := {
  githubTokens : option (list string);
  waitRateLimit : option bool;
}.

Record GithubOptions : Type := {
  tokens : option (list string);
  gh_waitRateLimit : bool;
}.

Record SourceOptions : Type := {
  npmRegistry : string;
}.

(** The collectors found by [require-directory]; their internals are not part
    of this development, only how each call settles. *)
Record Collectors : Type := {
  c_metadata : PackageData -> object -> outcome value;
  c_metadata_empty : string -> value;
  c_npm : PackageData -> object -> Nano -> outcome value;
  c_github : object -> Downloaded -> GithubOptions -> outcome value;
  c_source : PackageData -> object -> Downloaded -> SourceOptions -> outcome value;
}.

(** An entry of the object handed to [promisePropsSettled]: a pending
    operation, given by how it settles, or the falsy skip value. *)
Definition entry : Type := option (outcome value).

(** Calling collector [key]: the call is recorded and yields the pending
    operation. *)
Definition start (key : string) (o : outcome value) : promise entry :=
  ([CollectorCall key], Fulfilled (Some o)).

(** [owner && collector(...)] *)
Definition start_if (owner : bool) (key : string) (o : outcome value)
    : promise entry :=
  if owner then start key o else resolve None.

(** Modelled from the spec: [./util/promisePropsSettled] is missing from the
    sources.  It accepts a mapping from name to either a pending operation or
    a falsy value meaning that the entry is skipped, and returns, once every
    operation has finished, a mapping containing only the names whose
    operation fulfilled; skipped entries are absent; entries whose operation
    failed are absent and the failure is logged. It never fails itself. *)
Fixpoint promisePropsSettled (entries : list (string * entry))
    : promise (gmap string value) :=
  match entries with
  | [] => resolve ∅
  | (_, None) :: rest => promisePropsSettled rest
  | (key, Some (Fulfilled v)) :: rest =>
      then_ (promisePropsSettled rest) (fun m => resolve (<[key := v]> m))
  | (key, Some (Rejected err)) :: rest =>
      then_ (emit (LogError key err)) (fun _ => promisePropsSettled rest)
  end.

(** The comparator handed to [intersectionWith]. *)
Definition same_maintainer (maintainer downloadedMaintainer : Maintainer) : bool :=
  bool_decide (m_name maintainer = m_name downloadedMaintainer)
  || bool_decide (m_email maintainer = m_email downloadedMaintainer).

Definition warn_message (packageJson : object) : string :=
  "Publisher of package " +:+ to_string (lookup_prop "name" packageJson)
  +:+ " does not own the repository".

Definition checkRepositoryOwnership (data : PackageData) (packageJson : object)
    (downloaded : Downloaded) (npmNano : Nano) : promise bool :=
  if strict_eq (lookup_prop "name" packageJson)
       (lookup_prop "name" (dl_packageJson downloaded))
  then resolve true
  else
    let repositoryUrl :=
      guarded_member (lookup_prop "repository" packageJson) "url" in
    let downloadedRepositoryUrl :=
      guarded_member (lookup_prop "repository" (dl_packageJson downloaded)) "url" in
    if negb (truthy repositoryUrl) && negb (truthy downloadedRepositoryUrl)
    then resolve true
    else if isEmpty (dl_packageJson downloaded) then resolve false
    else
      catch_where "error" "not_found"
        (tap
           (then_ (getAsync npmNano (lookup_prop "name" (dl_packageJson downloaded)))
              (fun downloadedData =>
                 resolve
                   (0 <? length (intersectionWith (maintainers data)
                                   (maintainers downloadedData) same_maintainer))%nat))
           (fun isMaintainer =>
              if negb isMaintainer
              then emit (LogWarn packageJson downloaded (warn_message packageJson))
              else resolve tt))
        (fun _ => resolve false).

(** [empty(name)] *)
Definition empty (cs : Collectors) (name : string) : gmap string value :=
  {[ "metadata" := c_metadata_empty cs name ]}.

(** [Object.assign({ githubTokens: null, waitRateLimit: false }, options)] *)
Definition with_defaults (options : option Options) : GithubOptions :=
  match options with
  | None => {| tokens := None; gh_waitRateLimit := false |}
  | Some o => {| tokens := githubTokens o;
                 gh_waitRateLimit := default false (waitRateLimit o) |}
  end.

Definition source_options (npmNano : Nano) : SourceOptions :=
  {| npmRegistry := config_url npmNano +:+ "/" +:+ config_db npmNano |}.

Definition collect (cs : Collectors) (data : PackageData) (packageJson : object)
    (downloaded : Downloaded) (npmNano : Nano) (options : option Options)
    : promise (gmap string value) :=
  let options := with_defaults options in
  then_ (checkRepositoryOwnership data packageJson downloaded npmNano)
    (fun isRepositoryOwner =>
       let isSourceOwner :=
         String.eqb (dl_downloader downloaded) "npm" || isRepositoryOwner in
       then_
         (metadata ← start "metadata" (c_metadata cs data packageJson);
          npm ← start "npm" (c_npm cs data packageJson npmNano);
          github ← start_if isRepositoryOwner "github"
                     (c_github cs packageJson downloaded options);
          source ← start_if isSourceOwner "source"
                     (c_source cs data packageJson downloaded (source_options npmNano));
          promisePropsSettled
            [("metadata", metadata); ("npm", npm);
             ("github", github); ("source", source)])
         (fun collected => resolve (pickBy collected))).

End Collect.

(** * [lib/analyze/download/util/findPackageDir.js] *)

Module FindPackageDir.

(** The file system as the code sees it: what [globby] yields for a pattern
    and a working directory, and how reading and parsing a JSON file
    settles. *)
Record FileSystem : Type := {
  glob_outcome : string -> string -> outcome (list string);
  load_outcome : string -> outcome value;
}.

(** [globby(pattern, { cwd, onlyFiles: true, followSymlinkedDirectories: false })] *)
Definition globby (fs : FileSystem) (pattern cwd : string) : promise (list string) :=
  perform (Globby pattern cwd) (glob_outcome fs pattern cwd).

(** [loadJsonFile(file)] *)
Definition loadJsonFile (fs : FileSystem) (file : string) : promise value :=
  perform (LoadJsonFile file) (load_outcome fs file).

(** [v.k] inside a promise handler: reading a property of [null] or
    [undefined] throws, which rejects the promise. *)
Definition get_member (v : value) (k : string) : promise value :=
  match v with
  | VUndefined | VNull => reject (TypeError v k)
  | _ => resolve (member v k)
  end.

Definition isSamePackage (fs : FileSystem) (packageJson : object) (dir : string)
    : promise bool :=
  let file := dir +:+ "/package.json" in
  then_
    (catch_all
       (catch_where "code" "ENOENT" (loadJsonFile fs file)
          (fun _ => resolve (VObj [])))
       (fun err =>
          then_ (emit (LogDebug err file "Error reading package.json"))
            (fun _ => resolve (VObj []))))
    (fun downloadedPackageJson =>
       then_ (get_member downloadedPackageJson "name")
         (fun downloadedName =>
            resolve (strict_eq (lookup_prop "name" packageJson) downloadedName))).

(** Truthiness of the accumulator of the search: [null] or a path. *)
Definition found (packageDir : option string) : bool :=
  match packageDir with
  | Some s => negb (String.eqb s "")
  | None => false
  end.

(** The candidate directories built from the files matched by the glob. *)
Definition candidates (dir : string) (files : list string) : list string :=
  map (fun file => NodePath.join dir (NodePath.dirname file))
    (filter (fun file => file ≠ "package.json") files).

Definition lookForPackageDir (fs : FileSystem) (packageJson : object)
    (dir : string) : promise (option string) :=
  reduce
    (then_ (globby fs "**/package.json" dir)
       (fun files => resolve (candidates dir files)))
    (fun packageDir possiblePackageDir =>
       if found packageDir then resolve packageDir
       else
         then_ (isSamePackage fs packageJson possiblePackageDir)
           (fun isSame : bool =>
              resolve (if isSame then Some possiblePackageDir else None)))
    None.

(** [packageDir || dir] *)
Definition or_dir (packageDir : option string) (dir : string) : string :=
  match packageDir with
  | Some s => if found packageDir then s else dir
  | None => dir
  end.

Definition findPackageDir (fs : FileSystem) (packageJson : object) (dir : string)
    : promise string :=
  then_
    (then_ (isSamePackage fs packageJson dir)
       (fun isSame : bool =>
          if isSame then resolve (Some dir)
          else lookForPackageDir fs packageJson dir))
    (fun packageDir => resolve (or_dir packageDir dir)).

End FindPackageDir.

(** * Vocabulary of the statements *)

Module Spec.

Import Collect FindPackageDir.

(** The declared repository URL of a manifest:
    [o.repository && o.repository.url]. *)
Definition repository_url (o : object) : value :=
  guarded_member (lookup_prop "repository" o) "url".

(** The manifest has no [name] property at all. *)
Definition nameless (o : object) : Prop := "name" ∉ o.*1.

(** The three guards of [checkRepositoryOwnership] all fall through, so that
    the registry is queried. *)
Definition reaches_lookup (packageJson : object) (downloaded : Downloaded) : bool :=
  negb (strict_eq (lookup_prop "name" packageJson)
          (lookup_prop "name" (dl_packageJson downloaded)))
  && negb (negb (truthy (repository_url packageJson))
           && negb (truthy (repository_url (dl_packageJson downloaded))))
  && negb (isEmpty (dl_packageJson downloaded)).

(** The relation the comparator of [checkRepositoryOwnership] computes, as
    [===] has it: some maintainer of the package and some maintainer of the
    fetched record have strictly equal names or strictly equal emails, where
    two absent names (or two absent emails) are strictly equal. *)
Definition maintainers_overlap (data downloadedData : PackageData) : Prop :=
  ∃ m m', m ∈ castArrayLikeObject (maintainers data)
        ∧ m' ∈ castArrayLikeObject (maintainers downloadedData)
        ∧ (m_name m = m_name m' ∨ m_email m = m_email m').

(** Two maintainers match in the words of the specification: they carry the
    same name, or they carry the same email. *)
Definition shares_name_or_email (m m' : Maintainer) : Prop :=
  (∃ name, m_name m = Some name ∧ m_name m' = Some name)
  ∨ (∃ email, m_email m = Some email ∧ m_email m' = Some email).

(** The intersection of the maintainers of the package with those of the
    fetched record is not empty, in the words of the specification: both
    documents list maintainers, and one of the first list matches one of the
    second. *)
Definition share_name_or_email (data downloadedData : PackageData) : Prop :=
  ∃ ms ms' m m',
    maintainers data = Some ms ∧ maintainers downloadedData = Some ms'
    ∧ m ∈ ms ∧ m' ∈ ms' ∧ shares_name_or_email m m'.

(** A maintainer entry with both its name and its email. *)
Definition complete (m : Maintainer) : Prop :=
  is_Some (m_name m) ∧ is_Some (m_email m).

(** Every maintainer entry the document lists is complete. *)
Definition complete_entries (d : PackageData) : Prop :=
  ∀ ms, maintainers d = Some ms -> Forall complete ms.

(** The applicability condition of each collector in [collect]. *)
Definition applicable (isRepositoryOwner : bool) (downloaded : Downloaded)
    (key : string) : bool :=
  if String.eqb key "metadata" then true
  else if String.eqb key "npm" then true
  else if String.eqb key "github" then isRepositoryOwner
  else if String.eqb key "source" then
    String.eqb (dl_downloader downloaded) "npm" || isRepositoryOwner
  else false.

(** How the operation of collector [key] settles when [collect] calls it.
    There is no collector under any other key. *)
Definition operation (cs : Collectors) (data : PackageData) (packageJson : object)
    (downloaded : Downloaded) (npmNano : Nano) (options : option Options)
    (key : string) : option (outcome value) :=
  if String.eqb key "metadata" then Some (c_metadata cs data packageJson)
  else if String.eqb key "npm" then Some (c_npm cs data packageJson npmNano)
  else if String.eqb key "github" then
    Some (c_github cs packageJson downloaded (with_defaults options))
  else if String.eqb key "source" then
    Some (c_source cs data packageJson downloaded (source_options npmNano))
  else None.

(** The collector under [key] succeeded (with output [v]). *)
Definition succeeded_with (cs : Collectors) (data : PackageData)
    (packageJson : object) (downloaded : Downloaded) (npmNano : Nano)
    (options : option Options) (key : string) (v : value) : Prop :=
  operation cs data packageJson downloaded npmNano options key = Some (Fulfilled v).

Definition succeeded (cs : Collectors) (data : PackageData)
    (packageJson : object) (downloaded : Downloaded) (npmNano : Nano)
    (options : option Options) (key : string) : Prop :=
  ∃ v, succeeded_with cs data packageJson downloaded npmNano options key v.

(** What [isSamePackage] compares against after its two [catch]es: the parsed
    content of the manifest of [dir], or [{}] when reading it failed. *)
Definition manifest_at (fs : FileSystem) (dir : string) : value :=
  match load_outcome fs (dir +:+ "/package.json") with
  | Fulfilled v => v
  | Rejected _ => VObj []
  end.

(** The manifest of [dir] carries the name of the package looked for. *)
Definition same_name (fs : FileSystem) (packageJson : object) (dir : string)
    : bool :=
  strict_eq (lookup_prop "name" packageJson) (member (manifest_at fs dir) "name").

(** [null] or [undefined]: the values whose properties cannot be read. *)
Definition nullish (v : value) : bool :=
  match v with
  | VUndefined | VNull => true
  | _ => false
  end.

(** The first directory of an enumeration that passes a test. *)
Fixpoint first_match (same : string -> bool) (dirs : list string) : option string :=
  match dirs with
  | [] => None
  | d :: dirs' => if same d then Some d else first_match same dirs'
  end.

(** ** Reading traces *)

(** The names looked up in the registry, in order. *)
Definition registry_gets (tr : list event) : list value :=
  omap (fun ev => match ev with RegistryGet name => Some name | _ => None end) tr.

(** The warnings logged: payload and message. *)
Definition warnings (tr : list event) : list (object * Downloaded * string) :=
  omap (fun ev => match ev with
                  | LogWarn packageJson downloaded msg =>
                      Some (packageJson, downloaded, msg)
                  | _ => None
                  end) tr.

(** The collectors called, in order. *)
Definition collector_calls (tr : list event) : list string :=
  omap (fun ev => match ev with CollectorCall key => Some key | _ => None end) tr.

(** The JSON files read, in order. *)
Definition loaded_files (tr : list event) : list string :=
  omap (fun ev => match ev with LoadJsonFile file => Some file | _ => None end) tr.

(** The errors logged at debug level, with the file they are about. *)
Definition debug_logs (tr : list event) : list (value * string) :=
  omap (fun ev => match ev with
                  | LogDebug err file _ => Some (err, file)
                  | _ => None
                  end) tr.

(** The keys under which [collect] knows a collector, in the order of its
    object literal. *)
Definition collector_keys : list string := ["metadata"; "npm"; "github"; "source"].

(** The failure records of the applicable collectors that failed. *)
Definition failure_logs (cs : Collectors) (data : PackageData)
    (packageJson : object) (downloaded : Downloaded) (npmNano : Nano)
    (options : option Options) (verdict : bool) : list event :=
  omap (fun key =>
          if applicable verdict downloaded key then
            match operation cs data packageJson downloaded npmNano options key with
            | Some (Rejected err) => Some (LogError key err)
            | _ => None
            end
          else None) collector_keys.

(** The directories a search examines: those of the enumeration up to and
    including the first that passes the test. *)
Fixpoint examined (same : string -> bool) (dirs : list string) : list string :=
  match dirs with
  | [] => []
  | d :: dirs' => d :: (if same d then [] else examined same dirs')
  end.

(** The step of the search, as [lookForPackageDir] hands it to [reduce]. *)
Definition search_step (fs : FileSystem) (packageJson : object)
    (packageDir : option string) (possiblePackageDir : string)
    : promise (option string) :=
  if found packageDir then resolve packageDir
  else
    then_ (isSamePackage fs packageJson possiblePackageDir)
      (fun isSame : bool =>
         resolve (if isSame then Some possiblePackageDir else None)).

(** No character of the list is a slash. *)
Definition no_slash (l : list ascii) : Prop :=
  Forall (fun c => NodePath.is_slash c = false) l.

(** The manifest file of a directory, as [isSamePackage] names it. *)
Definition manifest_file (dir : string) : string := dir +:+ "/package.json".

(** A path segment that [path.normalize] keeps as it is. *)
Definition regular (seg : string) : Prop :=
  seg ≠ "" ∧ seg ≠ "." ∧ seg ≠ ".."
  ∧ no_slash (list_ascii_of_string seg).

End Spec.

(** * Concrete packages, registries and trees *)

Module Fixtures.

Import Collect FindPackageDir.

Definition alice : Maintainer :=
  {| m_name := Some "alice"; m_email := Some "alice@example.com" |}.
Definition mallory : Maintainer :=
  {| m_name := Some "mallory"; m_email := Some "mallory@example.com" |}.
Definition dave : Maintainer :=
  {| m_name := Some "dave"; m_email := Some "dave@example.com" |}.

(** Registry entries that carry a name only. *)
Definition mallory_by_name : Maintainer :=
  {| m_name := Some "mallory"; m_email := None |}.
Definition dave_by_name : Maintainer :=
  {| m_name := Some "dave"; m_email := None |}.

Definition jquery_repository : value :=
  VObj [("type", VStr "git"); ("url", VStr "git+https://github.com/jquery/jquery.git")].

(** The latest manifest of a package that points at jQuery's repository. *)
Definition latest : object :=
  [("name", VStr "tiny-pkg"); ("version", VStr "1.0.0");
   ("repository", jquery_repository)].

(** A latest manifest that declares no repository. *)
Definition latest_without_repository : object :=
  [("name", VStr "tiny-pkg"); ("version", VStr "1.0.0")].

Definition jquery_manifest : object :=
  [("name", VStr "jquery"); ("version", VStr "3.6.0");
   ("repository", jquery_repository)].

Definition data_of (ms : list Maintainer) : PackageData :=
  {| pkg_name := "tiny-pkg"; maintainers := Some ms |}.

Definition jquery_data : PackageData :=
  {| pkg_name := "jquery"; maintainers := Some [dave; alice] |}.

(** A checkout of the claimed repository. *)
Definition checkout : Downloaded :=
  {| dl_dir := "/tmp/tiny-pkg"; dl_packageJson := jquery_manifest;
     dl_downloader := "github" |}.

(** A download that produced nothing. *)
Definition failed_checkout : Downloaded :=
  {| dl_dir := "/tmp/tiny-pkg"; dl_packageJson := [];
     dl_downloader := "github" |}.

(** The registry tarball of the package, unpacked on top of foreign content. *)
Definition tarball : Downloaded :=
  {| dl_dir := "/tmp/tiny-pkg"; dl_packageJson := jquery_manifest;
     dl_downloader := "npm" |}.

Definition not_found : value :=
  VObj [("error", VStr "not_found"); ("reason", VStr "missing");
        ("statusCode", VNum 404)].

Definition timed_out : value :=
  VObj [("code", VStr "ETIMEDOUT"); ("message", VStr "connect ETIMEDOUT")].

Definition enoent : value :=
  VObj [("code", VStr "ENOENT"); ("syscall", VStr "open")].

Definition json_error : value :=
  VObj [("name", VStr "JSONError"); ("message", VStr "Unexpected token }")].

(** A registry client whose every lookup settles as [o]. *)
Definition nano (o : outcome PackageData) : Nano :=
  {| config_url := "https://replicate.npmjs.com"; config_db := "registry";
     get_outcome := fun _ => o |}.

Definition output (kind : string) : value := VObj [("collector", VStr kind)].

Definition rate_limited : value :=
  VObj [("message", VStr "API rate limit exceeded")].

(** Collectors that all succeed with an object. *)
Definition healthy : Collectors :=
  {| c_metadata := fun _ _ => Fulfilled (output "metadata");
     c_metadata_empty := fun name => VObj [("name", VStr name)];
     c_npm := fun _ _ _ => Fulfilled (output "npm");
     c_github := fun _ _ _ => Fulfilled (output "github");
     c_source := fun _ _ _ _ => Fulfilled (output "source") |}.

(** The repository-host collector fails, the others succeed. *)
Definition github_down : Collectors :=
  {| c_metadata := fun _ _ => Fulfilled (output "metadata");
     c_metadata_empty := fun name => VObj [("name", VStr name)];
     c_npm := fun _ _ _ => Fulfilled (output "npm");
     c_github := fun _ _ _ => Rejected rate_limited;
     c_source := fun _ _ _ _ => Fulfilled (output "source") |}.

(** The source collector succeeds, but with nothing to report. *)
Definition source_reports_nothing : Collectors :=
  {| c_metadata := fun _ _ => Fulfilled (output "metadata");
     c_metadata_empty := fun name => VObj [("name", VStr name)];
     c_npm := fun _ _ _ => Fulfilled (output "npm");
     c_github := fun _ _ _ => Rejected rate_limited;
     c_source := fun _ _ _ _ => Fulfilled VNull |}.

(** The package is not hosted where the repository-host collector looks: the
    collector succeeds with nothing to report; the source collector fails. *)
Definition github_reports_nothing : Collectors :=
  {| c_metadata := fun _ _ => Fulfilled (output "metadata");
     c_metadata_empty := fun name => VObj [("name", VStr name)];
     c_npm := fun _ _ _ => Fulfilled (output "npm");
     c_github := fun _ _ _ => Fulfilled VNull;
     c_source := fun _ _ _ _ => Rejected json_error |}.

(** Every collector fails. *)
Definition all_down : Collectors :=
  {| c_metadata := fun _ _ => Rejected json_error;
     c_metadata_empty := fun name => VObj [("name", VStr name)];
     c_npm := fun _ _ _ => Rejected timed_out;
     c_github := fun _ _ _ => Rejected rate_limited;
     c_source := fun _ _ _ _ => Rejected json_error |}.

(** A mono-repository: the root manifest names the repository itself, the
    packages live below [packages/]. *)
Definition manifest_named (name : string) : value :=
  VObj [("name", VStr name); ("version", VStr "1.0.0")].

Definition tree_of (files : list (string * outcome value)) (listing : list string)
    : FileSystem :=
  {| glob_outcome := fun _ _ => Fulfilled listing;
     load_outcome := fun file =>
       match list_find (fun kv => String.eqb kv.1 file = true) files with
       | Some (_, (_, o)) => o
       | None => Rejected enoent
       end |}.

Definition listing : list string :=
  ["package.json"; "packages/broken/package.json"; "packages/foo/package.json";
   "packages/foo-copy/package.json"].

Definition monorepo : FileSystem :=
  tree_of
    [("/tmp/repo/package.json", Fulfilled (manifest_named "monorepo"));
     ("/tmp/repo/packages/broken/package.json", Rejected json_error);
     ("/tmp/repo/packages/foo/package.json", Fulfilled (manifest_named "foo"));
     ("/tmp/repo/packages/foo-copy/package.json", Fulfilled (manifest_named "foo"))]
    listing.

(** The same tree, where [packages/broken/package.json] holds the JSON
    text [null]. *)
Definition monorepo_with_null : FileSystem :=
  tree_of
    [("/tmp/repo/package.json", Fulfilled (manifest_named "monorepo"));
     ("/tmp/repo/packages/broken/package.json", Fulfilled VNull);
     ("/tmp/repo/packages/foo/package.json", Fulfilled (manifest_named "foo"));
     ("/tmp/repo/packages/foo-copy/package.json", Fulfilled (manifest_named "foo"))]
    listing.

(** A tree whose enumeration fails. *)
Definition unreadable_tree : FileSystem :=
  {| glob_outcome := fun _ _ =>
       Rejected (VObj [("code", VStr "EACCES"); ("syscall", VStr "scandir")]);
     load_outcome := fun file =>
       if String.eqb file "/tmp/repo/package.json"
       then Fulfilled (manifest_named "monorepo")
       else Rejected enoent |}.

Definition foo_manifest : object := [("name", VStr "foo"); ("version", VStr "1.0.0")].

End Fixtures.

(** * Facts about the promise combinators *)

Import Collect FindPackageDir Spec.

Section promise_facts.
Context {A B : Type}.

Lemma settled_then (p : promise A) (f : A -> promise B) :
  settled (then_ p f)
  = match settled p with
    | Fulfilled a => settled (f a)
    | Rejected e => Rejected e
    end.
Proof.
  destruct p as [tr [a|e]]; simpl; [|reflexivity].
  destruct (f a); reflexivity.
Qed.

Lemma trace_then (p : promise A) (f : A -> promise B) :
  trace (then_ p f)
  = match settled p with
    | Fulfilled a => trace p ++ trace (f a)
    | Rejected e => trace p
    end.
Proof.
  destruct p as [tr [a|e]]; simpl; [|reflexivity].
  destruct (f a); reflexivity.
Qed.

Lemma then_resolve (a : A) (f : A -> promise B) : then_ (resolve a) f = f a.
Proof. unfold then_, resolve. destruct (f a); reflexivity. Qed.

End promise_facts.

(** * Facts about values and lodash *)

Lemma lookup_prop_absent (k : string) (o : object) :
  k ∉ o.*1 -> lookup_prop k o = VUndefined.
Proof.
  induction o as [|[k' v] o IH]; simpl; intros Hk; [reflexivity|].
  destruct (String.eqb_spec k k') as [->|Hne].
  - exfalso. apply Hk. left.
  - apply IH. intros Hin. apply Hk. right. exact Hin.
Qed.

Lemma strict_eq_undefined (v : value) :
  strict_eq v VUndefined = true <-> v = VUndefined.
Proof. destruct v; simpl; split; congruence. Qed.

Lemma isEmpty_nil (o : object) : isEmpty o = true <-> o = [].
Proof. destruct o; simpl; split; congruence. Qed.

Section intersection.
Context {A : Type} (comparator : A -> A -> bool).

Lemma baseIntersection_extends n (array other result : list A) :
  ∃ l, baseIntersection comparator n array other result = result ++ l.
Proof.
  revert result. induction array as [|v rest IH]; intros result; simpl.
  - exists []. by rewrite app_nil_r.
  - destruct (length result <? n)%nat; [|exists []; by rewrite app_nil_r].
    destruct (existsb (comparator v) result); [apply IH|].
    destruct (existsb (comparator v) other); [|apply IH].
    destruct (IH (result ++ [v])) as [l ->].
    exists (v :: l). by rewrite <- app_assoc.
Qed.

Lemma baseIntersection_nil n (array other : list A) :
  baseIntersection comparator n array other [] = []
  <-> n = 0%nat ∨ array = []
      ∨ Forall (fun v => existsb (comparator v) other = false) array.
Proof.
  induction array as [|v rest IH]; simpl.
  - split; [intros _; right; by left | done].
  - destruct n as [|n]; simpl.
    { split; [intros _; by left | done]. }
    destruct (existsb (comparator v) other) eqn:Hv.
    + destruct (baseIntersection_extends (S n) rest other [v]) as [l ->].
      split; [done|]. intros [?|[?|Hall]]; [done..|].
      inversion Hall; congruence.
    + rewrite IH. split.
      * intros [?|[->|Hall]]; [done| |]; right; right; by constructor.
      * intros [?|[?|Hall]]; [done..|]. right; right. by inversion Hall.
Qed.

End intersection.

Lemma same_maintainer_spec m m' :
  same_maintainer m m' = true <-> m_name m = m_name m' ∨ m_email m = m_email m'.
Proof.
  unfold same_maintainer. rewrite orb_true_iff, !bool_decide_eq_true. done.
Qed.

Lemma intersectionWith_maintainers (data downloadedData : PackageData) :
  (0 <? length (intersectionWith (maintainers data) (maintainers downloadedData)
                  same_maintainer))%nat = true
  <-> maintainers_overlap data downloadedData.
Proof.
  unfold maintainers_overlap, intersectionWith.
  destruct (maintainers data) as [a|]; simpl.
  2:{ split; [done|]. intros (m & m' & Hm & _). by apply elem_of_nil in Hm. }
  set (o := castArrayLikeObject (maintainers downloadedData)).
  rewrite Nat.ltb_lt. split.
  - intros Hlen.
    destruct (decide (Forall (fun v => existsb (same_maintainer v) o = false) a))
      as [Hall|Hex].
    + assert (baseIntersection same_maintainer (length a `min` length o) a o [] = [])
        as Hnil by (apply baseIntersection_nil; auto).
      rewrite Hnil in Hlen. simpl in Hlen. lia.
    + apply not_Forall_Exists in Hex; [|intros x; apply _].
      apply Exists_exists in Hex as (m & Hm & Hex).
      apply not_false_is_true in Hex.
      apply existsb_exists in Hex as (m' & Hm' & Hcmp).
      exists m, m'. rewrite <- !list_elem_of_In in *.
      split; [done|]. split; [done|]. by apply same_maintainer_spec.
  - intros (m & m' & Hm & Hm' & Hcmp).
    destruct (baseIntersection same_maintainer (length a `min` length o) a o [])
      eqn:Hb; [|simpl; lia].
    apply baseIntersection_nil in Hb as [Hmin|[->|Hall]].
    + destruct a, o; simpl in *; try lia;
        [by apply elem_of_nil in Hm | by apply elem_of_nil in Hm
        | by apply elem_of_nil in Hm'].
    + by apply elem_of_nil in Hm.
    + rewrite Forall_forall in Hall.
      assert (existsb (same_maintainer m) o = true) as Hex.
      { apply existsb_exists. exists m'. rewrite <- list_elem_of_In.
        split; [done|]. by apply same_maintainer_spec. }
      rewrite Hall in Hex; [done|]. done.
Qed.

(** * The Ownership Verifier *)

Section verifier.
Variables (data : PackageData) (packageJson : object) (downloaded : Downloaded)
  (npmNano : Nano).

(** What the verifier does once the three guards have fallen through, by how
    the registry lookup settles. *)
Lemma checkRepositoryOwnership_lookup :
  reaches_lookup packageJson downloaded = true ->
  checkRepositoryOwnership data packageJson downloaded npmNano
  = match get_outcome npmNano (lookup_prop "name" (dl_packageJson downloaded)) with
    | Fulfilled downloadedData =>
        if (0 <? length (intersectionWith (maintainers data)
                           (maintainers downloadedData) same_maintainer))%nat
        then ([RegistryGet (lookup_prop "name" (dl_packageJson downloaded))],
              Fulfilled true)
        else ([RegistryGet (lookup_prop "name" (dl_packageJson downloaded));
               LogWarn packageJson downloaded (warn_message packageJson)],
              Fulfilled false)
    | Rejected err =>
        if matches "error" "not_found" err
        then ([RegistryGet (lookup_prop "name" (dl_packageJson downloaded))],
              Fulfilled false)
        else ([RegistryGet (lookup_prop "name" (dl_packageJson downloaded))],
              Rejected err)
    end.
Proof.
  unfold reaches_lookup, repository_url, checkRepositoryOwnership, getAsync,
    perform.
  rewrite !andb_true_iff, !negb_true_iff. intros [[-> ->] ->].
  destruct (get_outcome npmNano _) as [downloadedData|err]; simpl.
  - destruct (0 <? _)%nat; reflexivity.
  - destruct (matches "error" "not_found" err); reflexivity.
Qed.

(** Without the lookup, the verifier performs no effect at all. *)
Lemma checkRepositoryOwnership_guarded :
  reaches_lookup packageJson downloaded = false ->
  ∃ verdict,
    checkRepositoryOwnership data packageJson downloaded npmNano
    = ([], Fulfilled verdict).
Proof.
  unfold reaches_lookup, repository_url, checkRepositoryOwnership.
  destruct (strict_eq _ _); [by exists true|].
  destruct (negb (truthy _) && negb (truthy _)); [by exists true|].
  destruct (isEmpty _); [by exists false|]. done.
Qed.

End verifier.

Import Fixtures.

(** C6 — For every input, the Ownership Verifier returns true without any
    registry lookup (indeed without any effect) when the latest manifest's
    name equals the downloaded manifest's name, whatever the repository URLs
    and maintainers are, and also when both manifests declare no repository
    URL ([repository && repository.url] is falsy for both). *)
Theorem C6_trusted_without_lookup (data : PackageData) (packageJson : object)
    (downloaded : Downloaded) (npmNano : Nano) :
  strict_eq (lookup_prop "name" packageJson)
    (lookup_prop "name" (dl_packageJson downloaded)) = true
  ∨ (truthy (repository_url packageJson) = false
     ∧ truthy (repository_url (dl_packageJson downloaded)) = false) ->
  checkRepositoryOwnership data packageJson downloaded npmNano
  = ([], Fulfilled true).
Proof.
  unfold checkRepositoryOwnership, repository_url.
  intros [-> | [-> ->]]; [reflexivity|].
  by destruct (strict_eq _ _).
Qed.

Lemma C6_trusted_without_lookup_witness :
  checkRepositoryOwnership (data_of [mallory]) jquery_manifest checkout
    (nano (Rejected timed_out)) = ([], Fulfilled true)
  ∧ checkRepositoryOwnership (data_of [mallory]) latest_without_repository
      failed_checkout (nano (Rejected timed_out)) = ([], Fulfilled true).
Proof.
  split; apply C6_trusted_without_lookup.
  - left. reflexivity.
  - right. split; reflexivity.
Defined.

(** C10 — If the latest manifest has no [name] field and the downloaded
    manifest is empty, the name comparison of the verifier compares two absent
    values, finds them equal and the verdict is true: the check for an empty
    downloaded manifest is never reached. *)
Theorem C10_absent_names_are_equal (data : PackageData) (packageJson : object)
    (downloaded : Downloaded) (npmNano : Nano) :
  nameless packageJson ->
  isEmpty (dl_packageJson downloaded) = true ->
  strict_eq (lookup_prop "name" packageJson)
    (lookup_prop "name" (dl_packageJson downloaded)) = true
  ∧ checkRepositoryOwnership data packageJson downloaded npmNano
    = ([], Fulfilled true).
Proof.
  intros Hname Hempty%isEmpty_nil.
  assert (strict_eq (lookup_prop "name" packageJson)
            (lookup_prop "name" (dl_packageJson downloaded)) = true) as Heq.
  { rewrite Hempty, (lookup_prop_absent _ _ Hname). reflexivity. }
  split; [exact Heq|].
  unfold checkRepositoryOwnership. by rewrite Heq.
Qed.

Lemma C10_absent_names_are_equal_witness :
  checkRepositoryOwnership (data_of [mallory])
    [("version", VStr "1.0.0"); ("repository", jquery_repository)]
    failed_checkout (nano (Rejected timed_out))
  = ([], Fulfilled true).
Proof.
  apply C10_absent_names_are_equal.
  - unfold nameless. simpl.
    repeat (apply not_elem_of_cons; split; [discriminate|]). apply not_elem_of_nil.
  - reflexivity.
Defined.

(** C2, as stated, fails: a package whose downloaded manifest is empty and
    whose latest manifest declares no repository gets verdict true. *)
Lemma C2_empty_download_counterexample :
  ¬ (∀ (data : PackageData) (packageJson : object) (downloaded : Downloaded)
       (npmNano : Nano),
       isEmpty (dl_packageJson downloaded) = true ->
       settled (checkRepositoryOwnership data packageJson downloaded npmNano)
       = Fulfilled false).
Proof.
  intros H.
  specialize (H (data_of [mallory]) latest_without_repository failed_checkout
                (nano (Rejected not_found)) eq_refl).
  vm_compute in H. discriminate H.
Qed.

(** C2 (amended) — For every package whose downloaded manifest is entirely
    empty, the verifier settles without a registry lookup, and its verdict is
    false exactly when the latest manifest has a name and declares a
    repository URL. *)

Theorem C2_empty_download_verdict (data : PackageData) (packageJson : object)
    (downloaded : Downloaded) (npmNano : Nano) :
  isEmpty (dl_packageJson downloaded) = true ->
  ∃ verdict,
    checkRepositoryOwnership data packageJson downloaded npmNano
    = ([], Fulfilled verdict)
    ∧ (verdict = false
       <-> lookup_prop "name" packageJson ≠ VUndefined
           ∧ truthy (repository_url packageJson) = true).
Proof.
  intros Hempty. pose proof Hempty as Hnil%isEmpty_nil.
  unfold checkRepositoryOwnership, repository_url. rewrite Hempty, Hnil. simpl.
  destruct (strict_eq (lookup_prop "name" packageJson) VUndefined) eqn:Hname.
  - apply strict_eq_undefined in Hname. exists true. split; [reflexivity|].
    split; [done|]. intros [? _]. done.
  - assert (lookup_prop "name" packageJson ≠ VUndefined) as Hne.
    { intros Heq. apply strict_eq_undefined in Heq. congruence. }
    destruct (truthy (guarded_member _ _)); simpl; eexists;
      (split; [reflexivity|]); split; try done.
    intros [_ ?]. done.
Qed.

Lemma C2_empty_download_verdict_witness :
  ∃ verdict,
    checkRepositoryOwnership (data_of [mallory]) latest failed_checkout
      (nano (Rejected timed_out)) = ([], Fulfilled verdict)
    ∧ (verdict = false
       <-> lookup_prop "name" latest ≠ VUndefined
           ∧ truthy (repository_url latest) = true).
Proof. apply C2_empty_download_verdict. reflexivity. Defined.

(** C4 — Two maintainers are meant to match when they have a name or an
    email in common.  The comparator of the verifier compares the fields with
    [===] without looking whether they are there: two entries that both lack
    an email (or both lack a name) match.  Here the package is maintained by
    [mallory] and the fetched record by [dave], both entries carrying a name
    only: the lookup is reached, the two share no name and no email, and the
    verdict is true, with no warning. *)
Theorem C4_absent_fields_match :
  reaches_lookup latest checkout = true
  ∧ ¬ share_name_or_email (data_of [mallory_by_name])
        {| pkg_name := "jquery"; maintainers := Some [dave_by_name] |}
  ∧ checkRepositoryOwnership (data_of [mallory_by_name]) latest checkout
      (nano (Fulfilled {| pkg_name := "jquery";
                          maintainers := Some [dave_by_name] |}))
    = ([RegistryGet (VStr "jquery")], Fulfilled true).
Proof.
  split; [reflexivity|]. split; [|reflexivity].
  intros (ms & ms' & m & m' & [= <-] & [= <-] & Hm & Hm' & Hshare).
  apply list_elem_of_singleton in Hm as ->.
  apply list_elem_of_singleton in Hm' as ->.
  destruct Hshare as [(name & [= <-] & [=]) | (email & [=] & _)].
Qed.

(** C7, as stated, fails: when the downloaded manifest is empty the verdict
    is false and nothing is logged. *)
Lemma C7_warning_counterexample :
  ¬ (∀ (data : PackageData) (packageJson : object) (downloaded : Downloaded)
       (npmNano : Nano),
       settled (checkRepositoryOwnership data packageJson downloaded npmNano)
       = Fulfilled false ->
       ∃ msg, LogWarn packageJson downloaded msg
              ∈ trace (checkRepositoryOwnership data packageJson downloaded npmNano)).
Proof.
  intros H.
  destruct (H (data_of [mallory]) latest failed_checkout
              (nano (Fulfilled jquery_data)) eq_refl) as [msg Hin].
  vm_compute in Hin. by apply elem_of_nil in Hin.
Qed.

(** C7 (amended) — For every invocation of the verifier that resolves to
    verdict false: if the record of the downloaded package was fetched from
    the registry, exactly one warning is logged, after the lookup, carrying
    the latest manifest and the downloaded info and naming the package; if the
    downloaded manifest is empty, nothing is logged. *)
Theorem C7_warning_on_maintainer_mismatch (data : PackageData)
    (packageJson : object) (downloaded : Downloaded) (npmNano : Nano) :
  settled (checkRepositoryOwnership data packageJson downloaded npmNano)
  = Fulfilled false ->
  (∀ downloadedData,
     reaches_lookup packageJson downloaded = true ->
     get_outcome npmNano (lookup_prop "name" (dl_packageJson downloaded))
     = Fulfilled downloadedData ->
     trace (checkRepositoryOwnership data packageJson downloaded npmNano)
     = [RegistryGet (lookup_prop "name" (dl_packageJson downloaded));
        LogWarn packageJson downloaded
          ("Publisher of package " +:+ to_string (lookup_prop "name" packageJson)
           +:+ " does not own the repository")])
  ∧ (isEmpty (dl_packageJson downloaded) = true ->
     trace (checkRepositoryOwnership data packageJson downloaded npmNano) = []).
Proof.
  intros Hfalse. split.
  - intros downloadedData Hreach Hget. revert Hfalse.
    rewrite (checkRepositoryOwnership_lookup _ _ _ _ Hreach), Hget.
    destruct (0 <? _)%nat; simpl; [discriminate|reflexivity].
  - intros Hempty.
    destruct (checkRepositoryOwnership_guarded data packageJson downloaded npmNano)
      as [verdict ->]; [|reflexivity].
    unfold reaches_lookup. rewrite Hempty. by rewrite andb_false_r.
Qed.

Lemma C7_warning_on_maintainer_mismatch_witness :
  trace (checkRepositoryOwnership (data_of [mallory]) latest checkout
           (nano (Fulfilled jquery_data)))
  = [RegistryGet (VStr "jquery");
     LogWarn latest checkout
       "Publisher of package tiny-pkg does not own the repository"].
Proof.
  destruct (C7_warning_on_maintainer_mismatch (data_of [mallory]) latest checkout
              (nano (Fulfilled jquery_data)) eq_refl) as [Hwarn _].
  exact (Hwarn jquery_data eq_refl eq_refl).
Defined.

(** * The aggregator and the orchestrator *)

(** The aggregator never fails, and its result holds exactly the entries
    whose operation fulfilled. *)
Lemma promisePropsSettled_settled (entries : list (string * entry)) :
  ∃ m, settled (promisePropsSettled entries) = Fulfilled m
       ∧ (NoDup entries.*1 ->
          ∀ key v, m !! key = Some v <-> (key, Some (Fulfilled v)) ∈ entries).
Proof.
  induction entries as [|[k [[v0|err]|]] rest (m & Hm & IH)]; simpl.
  - exists ∅. split; [reflexivity|]. intros _ key v.
    rewrite lookup_empty, elem_of_nil. done.
  - exists (<[k := v0]> m). split.
    { rewrite settled_then, Hm. reflexivity. }
    intros [Hk Hnodup]%NoDup_cons key v. rewrite elem_of_cons.
    destruct (decide (k = key)) as [->|Hne].
    + rewrite lookup_insert_eq. split.
      * intros [= ->]. by left.
      * intros [[= ->]|Hin]; [done|]. exfalso. apply Hk.
        apply list_elem_of_fmap. by exists (key, Some (Fulfilled v)).
    + rewrite lookup_insert_ne by done. rewrite (IH Hnodup). split.
      * intros ?. by right.
      * intros [[= ? ?]|?]; [congruence|done].
  - exists m. split.
    { destruct (promisePropsSettled rest). exact Hm. }
    intros [_ Hnodup]%NoDup_cons key v. rewrite elem_of_cons, (IH Hnodup).
    split; [by right|]. intros [[= ? ?]|?]; done.
  - exists m. split; [exact Hm|].
    intros [_ Hnodup]%NoDup_cons key v. rewrite elem_of_cons, (IH Hnodup).
    split; [by right|]. intros [[= ? ?]|?]; done.
Qed.

Lemma pickBy_lookup (o : gmap string value) (key : string) (v : value) :
  pickBy o !! key = Some v <-> o !! key = Some v ∧ truthy v = true.
Proof. unfold pickBy. by rewrite map_lookup_filter_Some. Qed.

Lemma settled_start {B} (key : string) (o : outcome value)
    (f : entry -> promise B) :
  settled (then_ (start key o) f) = settled (f (Some o)).
Proof. unfold start. by rewrite settled_then. Qed.

Lemma settled_start_if {B} (owner : bool) (key : string) (o : outcome value)
    (f : entry -> promise B) :
  settled (then_ (start_if owner key o) f)
  = settled (f (if owner then Some o else None)).
Proof.
  unfold start_if. destruct owner; [apply settled_start|].
  by rewrite then_resolve.
Qed.

Section orchestrator.
Variables (cs : Collectors) (data : PackageData) (packageJson : object)
  (downloaded : Downloaded) (npmNano : Nano) (options : option Options).

(** The entries [collect] hands to the aggregator, for a given verdict. *)
Lemma collect_entries (verdict : bool) (key : string) (v : value) :
  (key, Some (Fulfilled v))
  ∈ [("metadata", Some (c_metadata cs data packageJson));
     ("npm", Some (c_npm cs data packageJson npmNano));
     ("github",
      if verdict
      then Some (c_github cs packageJson downloaded (with_defaults options))
      else None);
     ("source",
      if String.eqb (dl_downloader downloaded) "npm" || verdict
      then Some (c_source cs data packageJson downloaded (source_options npmNano))
      else None)]
  <-> applicable verdict downloaded key = true
      ∧ operation cs data packageJson downloaded npmNano options key
        = Some (Fulfilled v).
Proof.
  unfold applicable, operation. rewrite !elem_of_cons, elem_of_nil. split.
  - intros [[= -> <-]|[[= -> <-]|[[= -> Hg]|[[= -> Hs]|[]]]]]; simpl;
      [done|done| |].
    + destruct verdict; [by inversion Hg|done].
    + destruct (_ || _); [by inversion Hs|done].
  - intros [Happ Hop].
    destruct (String.eqb_spec key "metadata") as [->|_].
    { left. by rewrite Hop. }
    destruct (String.eqb_spec key "npm") as [->|_].
    { right; left. by rewrite Hop. }
    destruct (String.eqb_spec key "github") as [->|_].
    { right; right; left. rewrite Happ. by rewrite Hop. }
    destruct (String.eqb_spec key "source") as [->|_]; [|done].
    right; right; right; left. rewrite Happ. by rewrite Hop.
Qed.

(** Once the verdict is known, [collect] resolves, and its result holds
    exactly the truthy outputs of the applicable collectors that
    fulfilled. *)
Lemma collect_settled (verdict : bool) :
  settled (checkRepositoryOwnership data packageJson downloaded npmNano)
  = Fulfilled verdict ->
  ∃ collected,
    settled (collect cs data packageJson downloaded npmNano options)
    = Fulfilled collected
    ∧ ∀ key v,
        collected !! key = Some v
        <-> applicable verdict downloaded key = true
            ∧ operation cs data packageJson downloaded npmNano options key
              = Some (Fulfilled v)
            ∧ truthy v = true.
Proof.
  intros Hverdict. unfold collect. rewrite settled_then, Hverdict.
  rewrite settled_then. unfold mbind, promise_bind.
  rewrite !settled_start, !settled_start_if.
  match goal with
  | |- context [promisePropsSettled ?l] =>
      destruct (promisePropsSettled_settled l) as (m & -> & Hlookup)
  end.
  assert (NoDup ["metadata"; "npm"; "github"; "source"]) as Hnodup.
  { apply (bool_decide_unpack _). vm_compute. exact I. }
  specialize (Hlookup Hnodup).
  exists (pickBy m). split; [reflexivity|].
  intros key v. rewrite pickBy_lookup, Hlookup, collect_entries. tauto.
Qed.

(** A failure of the verifier is a failure of [collect], and no collector is
    called. *)
Lemma collect_rejected (tr : list event) (err : value) :
  checkRepositoryOwnership data packageJson downloaded npmNano
  = (tr, Rejected err) ->
  collect cs data packageJson downloaded npmNano options = (tr, Rejected err).
Proof. intros Hverdict. unfold collect. by rewrite Hverdict. Qed.

End orchestrator.

(** C1, as stated, fails: from a registry tarball, a source collector that
    succeeds with [null] leaves no [source] key in the result. *)
Lemma C1_gated_keys_counterexample :
  ¬ (∀ (cs : Collectors) (data : PackageData) (packageJson : object)
       (downloaded : Downloaded) (npmNano : Nano) (options : option Options)
       (verdict : bool) (collected : gmap string value),
       settled (checkRepositoryOwnership data packageJson downloaded npmNano)
       = Fulfilled verdict ->
       settled (collect cs data packageJson downloaded npmNano options)
       = Fulfilled collected ->
       (is_Some (collected !! "source")
        <-> succeeded cs data packageJson downloaded npmNano options "source"
            ∧ (dl_downloader downloaded = "npm" ∨ verdict = true))).
Proof.
  intros H.
  destruct (collect_settled source_reports_nothing (data_of [mallory]) latest
              tarball (nano (Fulfilled jquery_data)) None false eq_refl)
    as (collected & Hcollect & Hkeys).
  specialize (H source_reports_nothing (data_of [mallory]) latest tarball
                (nano (Fulfilled jquery_data)) None false collected eq_refl
                Hcollect).
  destruct H as [_ H]. destruct H as [v Hv].
  - split; [by exists VNull | by left].
  - apply Hkeys in Hv as (_ & Hop & Htruthy).
    vm_compute in Hop. injection Hop as <-. discriminate Htruthy.
Qed.

(** C1 (amended) — For every collection pass, [collect] resolves and its
    result contains the [github] key only if the ownership verdict is true;
    contains the [source] key if and only if the source collector succeeded
    with a truthy output and the download came from the registry tarball
    ([downloader] is ['npm']) or the verdict is true, so that a registry
    tarball yields the source key even when the verdict is false; and
    contains no key of a collector whose applicability condition was
    false. *)
Theorem C1_gated_keys (cs : Collectors) (data : PackageData)
    (packageJson : object) (downloaded : Downloaded) (npmNano : Nano)
    (options : option Options) (verdict : bool) :
  settled (checkRepositoryOwnership data packageJson downloaded npmNano)
  = Fulfilled verdict ->
  ∃ collected,
    settled (collect cs data packageJson downloaded npmNano options)
    = Fulfilled collected
    ∧ (is_Some (collected !! "github") -> verdict = true)
    ∧ (is_Some (collected !! "source")
       <-> (∃ v, succeeded_with cs data packageJson downloaded npmNano options
                   "source" v
                 ∧ truthy v = true)
           ∧ (dl_downloader downloaded = "npm" ∨ verdict = true))
    ∧ (verdict = false -> dl_downloader downloaded = "npm" ->
       ∀ v, succeeded_with cs data packageJson downloaded npmNano options
              "source" v ->
            truthy v = true -> collected !! "source" = Some v)
    ∧ (∀ key, is_Some (collected !! key) ->
              applicable verdict downloaded key = true).
Proof.
  intros Hverdict.
  destruct (collect_settled cs data packageJson downloaded npmNano options
              verdict Hverdict) as (collected & Hcollect & Hkeys).
  exists collected. split; [exact Hcollect|].
  assert (applicable verdict downloaded "source" = true
          <-> dl_downloader downloaded = "npm" ∨ verdict = true) as Hsource.
  { unfold applicable. simpl. by rewrite orb_true_iff, String.eqb_eq. }
  split; [|split; [split|split]].
  - intros [v Hv]. by apply Hkeys in Hv as [Happ _].
  - intros [v Hv]. apply Hkeys in Hv as (Happ & Hop & Htruthy).
    split; [by exists v | by apply Hsource].
  - intros [(v & Hop & Htruthy) Hgate]. exists v. apply Hkeys.
    split; [by apply Hsource|]. done.
  - intros _ Hnpm v Hop Htruthy. apply Hkeys.
    split; [apply Hsource; by left|]. done.
  - intros key [v Hv]. by apply Hkeys in Hv as [Happ _].
Qed.

Lemma C1_gated_keys_witness :
  ∃ collected,
    settled (collect healthy (data_of [mallory]) latest tarball
               (nano (Fulfilled jquery_data)) None) = Fulfilled collected
    ∧ collected !! "github" = None
    ∧ collected !! "source" = Some (output "source").
Proof.
  destruct (C1_gated_keys healthy (data_of [mallory]) latest tarball
              (nano (Fulfilled jquery_data)) None false eq_refl)
    as (collected & Hcollect & Hgithub & _ & Hsource & _).
  exists collected. split; [exact Hcollect|]. split.
  - destruct (collected !! "github") eqn:Hg; [|reflexivity].
    discriminate (Hgithub (mk_is_Some _ _ eq_refl)).
  - apply Hsource; reflexivity.
Defined.

(** C3, as stated, fails: with an owner verdict, a failing source collector
    and a repository-host collector that succeeds with [null], the result has
    no [github] key although that collector was applicable and succeeded. *)
Lemma C3_partial_failure_counterexample :
  ¬ (∀ (cs : Collectors) (data : PackageData) (packageJson : object)
       (downloaded : Downloaded) (npmNano : Nano) (options : option Options)
       (verdict : bool),
       settled (checkRepositoryOwnership data packageJson downloaded npmNano)
       = Fulfilled verdict ->
       ∃ collected,
         settled (collect cs data packageJson downloaded npmNano options)
         = Fulfilled collected
         ∧ ∀ key, is_Some (collected !! key)
                  <-> applicable verdict downloaded key = true
                      ∧ succeeded cs data packageJson downloaded npmNano
                          options key).
Proof.
  intros H.
  destruct (H github_reports_nothing (data_of [alice]) latest checkout
              (nano (Fulfilled jquery_data)) None true eq_refl)
    as (collected & Hcollect & Hclaim).
  destruct (collect_settled github_reports_nothing (data_of [alice]) latest
              checkout (nano (Fulfilled jquery_data)) None true eq_refl)
    as (collected' & Hcollect' & Hkeys).
  rewrite Hcollect in Hcollect'. injection Hcollect' as <-.
  destruct (proj2 (Hclaim "github")) as [v Hv].
  - split; [reflexivity | by exists VNull].
  - apply Hkeys in Hv as (_ & Hop & Htruthy).
    vm_compute in Hop. injection Hop as <-. discriminate Htruthy.
Qed.

(** C3 (amended) — For every invocation of [collect] whose ownership verdict
    is known, whichever of the applicable collectors fail and whichever
    succeed, the call resolves, and its result maps a key to an output
    exactly when the collector under that key was applicable and succeeded
    with that output, the output being truthy: the failure of one collector
    neither discards the output of another nor fails the call. *)
Theorem C3_partial_failure_isolated (cs : Collectors) (data : PackageData)
    (packageJson : object) (downloaded : Downloaded) (npmNano : Nano)
    (options : option Options) (verdict : bool) :
  settled (checkRepositoryOwnership data packageJson downloaded npmNano)
  = Fulfilled verdict ->
  ∃ collected,
    settled (collect cs data packageJson downloaded npmNano options)
    = Fulfilled collected
    ∧ ∀ key v,
        collected !! key = Some v
        <-> applicable verdict downloaded key = true
            ∧ succeeded_with cs data packageJson downloaded npmNano options key v
            ∧ truthy v = true.
Proof. apply collect_settled. Qed.

Lemma C3_partial_failure_isolated_witness :
  ∃ collected,
    settled (collect github_down (data_of [alice]) latest checkout
               (nano (Fulfilled jquery_data)) None) = Fulfilled collected
    ∧ collected !! "metadata" = Some (output "metadata")
    ∧ collected !! "npm" = Some (output "npm")
    ∧ collected !! "github" = None
    ∧ collected !! "source" = Some (output "source").
Proof.
  destruct (C3_partial_failure_isolated github_down (data_of [alice]) latest
              checkout (nano (Fulfilled jquery_data)) None true eq_refl)
    as (collected & Hcollect & Hkeys).
  exists collected. split; [exact Hcollect|].
  repeat split; try (apply Hkeys; repeat split; reflexivity).
  destruct (collected !! "github") as [v|] eqn:Hg; [|reflexivity].
  apply Hkeys in Hg as (_ & Hop & _). discriminate Hop.
Defined.

(** C5 — When the registry lookup of the verifier fails: a failure whose
    [error] is ['not_found'] yields verdict false; any other failure is the
    failure of the verifier itself and of the whole [collect] call, which
    calls no collector and produces no result. *)
Theorem C5_lookup_failure (cs : Collectors) (data : PackageData)
    (packageJson : object) (downloaded : Downloaded) (npmNano : Nano)
    (options : option Options) (err : value) :
  reaches_lookup packageJson downloaded = true ->
  get_outcome npmNano (lookup_prop "name" (dl_packageJson downloaded))
  = Rejected err ->
  if matches "error" "not_found" err
  then checkRepositoryOwnership data packageJson downloaded npmNano
       = ([RegistryGet (lookup_prop "name" (dl_packageJson downloaded))],
          Fulfilled false)
  else checkRepositoryOwnership data packageJson downloaded npmNano
       = ([RegistryGet (lookup_prop "name" (dl_packageJson downloaded))],
          Rejected err)
       ∧ collect cs data packageJson downloaded npmNano options
         = ([RegistryGet (lookup_prop "name" (dl_packageJson downloaded))],
            Rejected err).
Proof.
  intros Hreach Hget.
  pose proof (checkRepositoryOwnership_lookup data _ _ npmNano Hreach) as Hv.
  rewrite Hget in Hv.
  destruct (matches "error" "not_found" err); [exact Hv|].
  split; [exact Hv|]. by apply collect_rejected.
Qed.

Lemma C5_lookup_failure_witness :
  checkRepositoryOwnership (data_of [mallory]) latest checkout
    (nano (Rejected not_found))
  = ([RegistryGet (VStr "jquery")], Fulfilled false)
  ∧ collect healthy (data_of [mallory]) latest checkout
      (nano (Rejected timed_out)) None
    = ([RegistryGet (VStr "jquery")], Rejected timed_out).
Proof.
  split.
  - exact (C5_lookup_failure healthy (data_of [mallory]) latest checkout
             (nano (Rejected not_found)) None not_found eq_refl eq_refl).
  - exact (proj2 (C5_lookup_failure healthy (data_of [mallory]) latest checkout
                    (nano (Rejected timed_out)) None timed_out eq_refl eq_refl)).
Defined.

(** * The Package Directory Resolver *)

Lemma append_nonempty_r (s t : string) : t ≠ "" -> s +:+ t ≠ "".
Proof. destruct s; simpl; [done|discriminate]. Qed.

Lemma normalize_nonempty (p : string) : NodePath.normalize p ≠ "".
Proof.
  unfold NodePath.normalize.
  destruct (String.eqb p ""); [discriminate|].
  destruct (String.eqb_spec (NodePath.normalizeString p
                               (negb (NodePath.starts_with_slash p))) "")
    as [_|Hbody].
  - destruct (NodePath.starts_with_slash p); [discriminate|].
    destruct (NodePath.ends_with_slash p); discriminate.
  - destruct (NodePath.starts_with_slash p); [discriminate|].
    destruct (NodePath.ends_with_slash p); [|exact Hbody].
    apply append_nonempty_r. discriminate.
Qed.

Lemma join_nonempty (a b : string) : NodePath.join a b ≠ "".
Proof.
  unfold NodePath.join.
  destruct (String.eqb a ""), (String.eqb b "");
    try apply normalize_nonempty. discriminate.
Qed.

Lemma found_candidate (dir : string) (files : list string) (c : string) :
  c ∈ candidates dir files -> found (Some c) = true.
Proof.
  unfold candidates. intros (file & -> & _)%list_elem_of_fmap. simpl.
  apply negb_true_iff, String.eqb_neq, join_nonempty.
Qed.

Section resolver.
Variables (fs : FileSystem) (packageJson : object).

(** A manifest that can be read, or cannot be read at all, is compared by
    name; the comparison itself cannot fail unless the file holds [null]. *)
Lemma isSamePackage_settled (dir : string) :
  nullish (manifest_at fs dir) = false ->
  settled (isSamePackage fs packageJson dir)
  = Fulfilled (same_name fs packageJson dir).
Proof.
  unfold isSamePackage, same_name, manifest_at, loadJsonFile, perform.
  destruct (load_outcome fs _) as [v|err]; simpl.
  - intros Hv. destruct v; simpl in *; done.
  - intros _. destruct (matches "code" "ENOENT" err); reflexivity.
Qed.

Lemma isSamePackage_null (dir : string) :
  load_outcome fs (dir +:+ "/package.json") = Fulfilled VNull ->
  isSamePackage fs packageJson dir
  = ([LoadJsonFile (dir +:+ "/package.json")], Rejected (TypeError VNull "name")).
Proof.
  intros Hload. unfold isSamePackage, loadJsonFile, perform.
  rewrite Hload. reflexivity.
Qed.

(** The search keeps its first match. *)
Lemma search_found (dirs : list string) (packageDir : option string) :
  found packageDir = true ->
  settled
    (reduce_from
       (fun packageDir possiblePackageDir =>
          if found packageDir then resolve packageDir
          else
            then_ (isSamePackage fs packageJson possiblePackageDir)
              (fun isSame : bool =>
                 resolve (if isSame then Some possiblePackageDir else None)))
       dirs packageDir)
  = Fulfilled packageDir.
Proof.
  intros Hfound. induction dirs as [|d dirs IH]; simpl; [reflexivity|].
  rewrite Hfound, then_resolve. exact IH.
Qed.

Lemma search_settled (dirs : list string) :
  Forall (fun d => nullish (manifest_at fs d) = false ∧ found (Some d) = true)
    dirs ->
  settled
    (reduce_from
       (fun packageDir possiblePackageDir =>
          if found packageDir then resolve packageDir
          else
            then_ (isSamePackage fs packageJson possiblePackageDir)
              (fun isSame : bool =>
                 resolve (if isSame then Some possiblePackageDir else None)))
       dirs None)
  = Fulfilled (first_match (same_name fs packageJson) dirs).
Proof.
  induction 1 as [|d dirs [Hd Hfound] _ IH]; simpl; [reflexivity|].
  rewrite settled_then, settled_then, (isSamePackage_settled d Hd). simpl.
  destruct (same_name fs packageJson d); [|exact IH].
  by apply search_found.
Qed.

(** The resolver on a tree none of whose manifests holds [null]. *)
Lemma findPackageDir_settled (dir : string) (files : list string) :
  nullish (manifest_at fs dir) = false ->
  same_name fs packageJson dir = false ->
  glob_outcome fs "**/package.json" dir = Fulfilled files ->
  Forall (fun d => nullish (manifest_at fs d) = false) (candidates dir files) ->
  settled (findPackageDir fs packageJson dir)
  = Fulfilled
      (default dir (first_match (same_name fs packageJson) (candidates dir files))).
Proof.
  intros Hroot Hsame Hglob Hall. unfold findPackageDir.
  rewrite !settled_then, (isSamePackage_settled dir Hroot), Hsame.
  unfold lookForPackageDir, reduce, globby, perform.
  rewrite settled_then, settled_then. simpl. rewrite Hglob. simpl.
  rewrite search_settled.
  - simpl. destruct (first_match _ _) as [c|] eqn:Hc; simpl; [|reflexivity].
    assert (c ∈ candidates dir files) as Hin.
    { clear -Hc. induction (candidates dir files) as [|d l IH]; simpl in Hc;
        [done|].
      destruct (same_name fs packageJson d); [injection Hc as ->; left|].
      right. by apply IH. }
    apply found_candidate in Hin. simpl in Hin. by rewrite Hin.
  - rewrite Forall_forall in *. intros d Hd. split; [by apply Hall|].
    by eapply found_candidate.
Qed.

End resolver.

(** C9 — For every root directory whose own manifest name equals the target
    name, the resolver returns that root path unchanged, and the only thing
    it does is read the root manifest: the tree is not enumerated and no other
    manifest is read. *)
Theorem C9_root_match_no_traversal (fs : FileSystem) (packageJson : object)
    (dir : string) (manifest : object) :
  load_outcome fs (dir +:+ "/package.json") = Fulfilled (VObj manifest) ->
  strict_eq (lookup_prop "name" packageJson) (lookup_prop "name" manifest) = true ->
  findPackageDir fs packageJson dir
  = ([LoadJsonFile (dir +:+ "/package.json")], Fulfilled dir).
Proof.
  intros Hload Hname.
  unfold findPackageDir, isSamePackage, loadJsonFile, perform.
  rewrite Hload. simpl. rewrite Hname. simpl.
  unfold or_dir, found. by destruct (negb (String.eqb dir "")).
Qed.

Lemma C9_root_match_no_traversal_witness :
  findPackageDir monorepo [("name", VStr "monorepo")] "/tmp/repo"
  = ([LoadJsonFile "/tmp/repo/package.json"], Fulfilled "/tmp/repo").
Proof.
  apply (C9_root_match_no_traversal monorepo [("name", VStr "monorepo")]
           "/tmp/repo" [("name", VStr "monorepo"); ("version", VStr "1.0.0")]);
    reflexivity.
Defined.

(** C8 — The resolver is meant never to fail: an unreadable or malformed
    manifest of a candidate counts as no match and the search goes on.  A
    candidate manifest holding the JSON text [null] breaks this: reading it
    succeeds, comparing its name throws, and the whole call is rejected, here
    although [packages/foo], enumerated next, is the package looked for. *)
Theorem C8_null_manifest_aborts_search :
  findPackageDir monorepo_with_null foo_manifest "/tmp/repo"
  = ([LoadJsonFile "/tmp/repo/package.json";
      Globby "**/package.json" "/tmp/repo";
      LoadJsonFile "/tmp/repo/packages/broken/package.json"],
     Rejected (TypeError VNull "name"))
  ∧ settled (findPackageDir monorepo foo_manifest "/tmp/repo")
    = Fulfilled "/tmp/repo/packages/foo".
Proof. split; reflexivity. Qed.

(** * Further properties of the Ownership Verifier *)

(** X1 — The verifier queries the registry exactly when its three guards all
    fall through, then exactly once and for the name found in the downloaded
    manifest; otherwise it does not touch the registry. *)
Theorem verifier_registry_gets (data : PackageData) (packageJson : object)
    (downloaded : Downloaded) (npmNano : Nano) :
  registry_gets (trace (checkRepositoryOwnership data packageJson downloaded npmNano))
  = if reaches_lookup packageJson downloaded
    then [lookup_prop "name" (dl_packageJson downloaded)]
    else [].
Proof.
  destruct (reaches_lookup packageJson downloaded) eqn:Hreach.
  - rewrite (checkRepositoryOwnership_lookup data _ _ npmNano Hreach).
    destruct (get_outcome npmNano _) as [downloadedData|err].
    + destruct (0 <? _)%nat; reflexivity.
    + destruct (matches "error" "not_found" err); reflexivity.
  - destruct (checkRepositoryOwnership_guarded data _ _ npmNano Hreach)
      as [verdict ->]. reflexivity.
Qed.

(** X2 — The verifier fails only through its registry lookup: it is rejected
    with [err] exactly when the lookup is reached and rejected with [err], and
    [err] is not a [not_found] error. *)
Theorem verifier_rejected_iff (data : PackageData) (packageJson : object)
    (downloaded : Downloaded) (npmNano : Nano) (err : value) :
  settled (checkRepositoryOwnership data packageJson downloaded npmNano)
  = Rejected err
  <-> reaches_lookup packageJson downloaded = true
      ∧ get_outcome npmNano (lookup_prop "name" (dl_packageJson downloaded))
        = Rejected err
      ∧ matches "error" "not_found" err = false.
Proof.
  destruct (reaches_lookup packageJson downloaded) eqn:Hreach.
  - rewrite (checkRepositoryOwnership_lookup data _ _ npmNano Hreach).
    destruct (get_outcome npmNano _) as [downloadedData|err'].
    + destruct (0 <? _)%nat; simpl; split; [done| |done|];
        intros (_ & ? & _); done.
    + destruct (matches "error" "not_found" err') eqn:Hm; simpl.
      * split; [done|]. intros (_ & [= ->] & ?). congruence.
      * split; [intros [= ->]; done|]. intros (_ & [= ->] & _). done.
  - destruct (checkRepositoryOwnership_guarded data _ _ npmNano Hreach)
      as [verdict ->]. simpl. split; [done|]. intros (? & _). done.
Qed.

(** X3 — A warning is never logged with a true verdict or a failure: whenever
    the verifier logs a warning, it is the one carrying the latest manifest
    and the downloaded info, the verdict is false, and the record fetched
    from the registry shares no maintainer with the package. *)
Theorem verifier_warns_only_on_mismatch (data : PackageData)
    (packageJson : object) (downloaded : Downloaded) (npmNano : Nano)
    (w : object * Downloaded * string) :
  w ∈ warnings (trace (checkRepositoryOwnership data packageJson downloaded npmNano)) ->
  w = (packageJson, downloaded, warn_message packageJson)
  ∧ settled (checkRepositoryOwnership data packageJson downloaded npmNano)
    = Fulfilled false
  ∧ ∃ downloadedData,
      get_outcome npmNano (lookup_prop "name" (dl_packageJson downloaded))
      = Fulfilled downloadedData
      ∧ ¬ maintainers_overlap data downloadedData.
Proof.
  destruct (reaches_lookup packageJson downloaded) eqn:Hreach.
  - rewrite (checkRepositoryOwnership_lookup data _ _ npmNano Hreach).
    destruct (get_outcome npmNano _) as [downloadedData|err].
    + destruct (0 <? _)%nat eqn:Hlen; simpl.
      * intros Hin. by apply elem_of_nil in Hin.
      * intros ->%list_elem_of_singleton. split; [reflexivity|].
        split; [reflexivity|]. exists downloadedData. split; [reflexivity|].
        rewrite <- intersectionWith_maintainers, Hlen. done.
    + destruct (matches "error" "not_found" err); simpl;
        intros Hin; by apply elem_of_nil in Hin.
  - destruct (checkRepositoryOwnership_guarded data _ _ npmNano Hreach)
      as [verdict ->]. simpl. intros Hin. by apply elem_of_nil in Hin.
Qed.

Lemma verifier_warns_only_on_mismatch_witness :
  settled (checkRepositoryOwnership (data_of [mallory]) latest checkout
             (nano (Fulfilled jquery_data))) = Fulfilled false.
Proof.
  refine (proj1 (proj2 (verifier_warns_only_on_mismatch (data_of [mallory]) latest
                          checkout (nano (Fulfilled jquery_data))
                          (latest, checkout,
                           "Publisher of package tiny-pkg does not own the repository")
                          _))).
  vm_compute. left.
Defined.

Lemma maintainers_overlap_perm (data data' downloadedData downloadedData' : PackageData) :
  castArrayLikeObject (maintainers data) ≡ₚ castArrayLikeObject (maintainers data') ->
  castArrayLikeObject (maintainers downloadedData)
  ≡ₚ castArrayLikeObject (maintainers downloadedData') ->
  maintainers_overlap data downloadedData ->
  maintainers_overlap data' downloadedData'.
Proof.
  intros Hp Hq (m & m' & Hm & Hm' & Hcmp). exists m, m'.
  rewrite <- Hp, <- Hq. done.
Qed.

(** X4 — The verdict does not depend on the order in which the registry lists
    maintainers, neither those of the package nor those of the fetched
    record, although [intersectionWith] walks them in order and stops
    early. *)
Theorem verifier_ignores_maintainer_order (data data' : PackageData)
    (packageJson : object) (downloaded : Downloaded) (npmNano npmNano' : Nano)
    (downloadedData downloadedData' : PackageData) :
  reaches_lookup packageJson downloaded = true ->
  get_outcome npmNano (lookup_prop "name" (dl_packageJson downloaded))
  = Fulfilled downloadedData ->
  get_outcome npmNano' (lookup_prop "name" (dl_packageJson downloaded))
  = Fulfilled downloadedData' ->
  castArrayLikeObject (maintainers data) ≡ₚ castArrayLikeObject (maintainers data') ->
  castArrayLikeObject (maintainers downloadedData)
  ≡ₚ castArrayLikeObject (maintainers downloadedData') ->
  checkRepositoryOwnership data packageJson downloaded npmNano
  = checkRepositoryOwnership data' packageJson downloaded npmNano'.
Proof.
  intros Hreach Hget Hget' Hp Hq.
  rewrite !(checkRepositoryOwnership_lookup _ _ _ _ Hreach), Hget, Hget'.
  assert ((0 <? length (intersectionWith (maintainers data)
                          (maintainers downloadedData) same_maintainer))%nat
          = (0 <? length (intersectionWith (maintainers data')
                            (maintainers downloadedData') same_maintainer))%nat)
    as ->; [|reflexivity].
  apply eq_true_iff_eq. rewrite !intersectionWith_maintainers.
  split; apply maintainers_overlap_perm; done.
Qed.

Lemma verifier_ignores_maintainer_order_witness :
  checkRepositoryOwnership (data_of [mallory; alice]) latest checkout
    (nano (Fulfilled jquery_data))
  = checkRepositoryOwnership (data_of [alice; mallory]) latest checkout
      (nano (Fulfilled {| pkg_name := "jquery"; maintainers := Some [alice; dave] |})).
Proof.
  apply (verifier_ignores_maintainer_order _ _ _ _ _ _ jquery_data
           {| pkg_name := "jquery"; maintainers := Some [alice; dave] |});
    try reflexivity; apply perm_swap.
Defined.

(** X5 — A registry document without maintainers counts as one with none:
    when the lookup is reached and a record is fetched, and either the
    package data or the fetched record has no (or an empty) [maintainers]
    list, the verdict is false and the warning is logged. *)
Theorem verifier_without_maintainers (data : PackageData) (packageJson : object)
    (downloaded : Downloaded) (npmNano : Nano) (downloadedData : PackageData) :
  reaches_lookup packageJson downloaded = true ->
  get_outcome npmNano (lookup_prop "name" (dl_packageJson downloaded))
  = Fulfilled downloadedData ->
  castArrayLikeObject (maintainers data) = []
  ∨ castArrayLikeObject (maintainers downloadedData) = [] ->
  checkRepositoryOwnership data packageJson downloaded npmNano
  = ([RegistryGet (lookup_prop "name" (dl_packageJson downloaded));
      LogWarn packageJson downloaded (warn_message packageJson)],
     Fulfilled false).
Proof.
  intros Hreach Hget Hnone.
  rewrite (checkRepositoryOwnership_lookup _ _ _ _ Hreach), Hget.
  destruct (0 <? _)%nat eqn:Hlen; [|reflexivity].
  apply intersectionWith_maintainers in Hlen as (m & m' & Hm & Hm' & _).
  destruct Hnone as [Hnil|Hnil]; rewrite Hnil in *;
    [by apply elem_of_nil in Hm | by apply elem_of_nil in Hm'].
Qed.

Lemma verifier_without_maintainers_witness :
  checkRepositoryOwnership {| pkg_name := "tiny-pkg"; maintainers := None |}
    latest checkout (nano (Fulfilled jquery_data))
  = ([RegistryGet (VStr "jquery");
      LogWarn latest checkout
        "Publisher of package tiny-pkg does not own the repository"],
     Fulfilled false).
Proof.
  exact (verifier_without_maintainers
           {| pkg_name := "tiny-pkg"; maintainers := None |} latest checkout
           (nano (Fulfilled jquery_data)) jquery_data eq_refl eq_refl
           (or_introl eq_refl)).
Defined.

(** X18 — A downloaded manifest that is not empty but has no [name] does not
    stop the verifier: when the latest manifest has a name and one of the two
    declares a repository URL, the registry is asked for the document named
    [undefined]. *)
Theorem verifier_looks_up_undefined (data : PackageData) (packageJson : object)
    (downloaded : Downloaded) (npmNano : Nano) :
  nameless (dl_packageJson downloaded) ->
  isEmpty (dl_packageJson downloaded) = false ->
  lookup_prop "name" packageJson ≠ VUndefined ->
  truthy (repository_url packageJson) = true
  ∨ truthy (repository_url (dl_packageJson downloaded)) = true ->
  registry_gets (trace (checkRepositoryOwnership data packageJson downloaded npmNano))
  = [VUndefined].
Proof.
  intros Hnameless Hempty Hname Hurl.
  rewrite verifier_registry_gets.
  pose proof (lookup_prop_absent _ _ Hnameless) as Hundef.
  assert (reaches_lookup packageJson downloaded = true) as ->.
  { unfold reaches_lookup. rewrite Hundef, Hempty.
    destruct (strict_eq (lookup_prop "name" packageJson) VUndefined) eqn:Heq.
    { by apply strict_eq_undefined in Heq. }
    destruct Hurl as [-> | ->]; simpl; [reflexivity|].
    by rewrite andb_false_r. }
  by rewrite Hundef.
Qed.

Lemma verifier_looks_up_undefined_witness :
  registry_gets
    (trace (checkRepositoryOwnership (data_of [mallory]) latest
              {| dl_dir := "/tmp/tiny-pkg";
                 dl_packageJson := [("version", VStr "0.0.1")];
                 dl_downloader := "github" |}
              (nano (Rejected not_found))))
  = [VUndefined].
Proof.
  apply verifier_looks_up_undefined.
  - unfold nameless. simpl.
    apply not_elem_of_cons; split; [discriminate|apply not_elem_of_nil].
  - reflexivity.
  - discriminate.
  - left. reflexivity.
Defined.

(** X19 — The verdict is decided by the manifests, the maintainers and the
    registry only: the directory and the kind of the download play no part in
    it (the trust in registry tarballs is granted by [collect], not by the
    verifier). *)
Theorem verifier_ignores_downloader (data : PackageData) (packageJson : object)
    (downloaded downloaded' : Downloaded) (npmNano : Nano) :
  dl_packageJson downloaded = dl_packageJson downloaded' ->
  settled (checkRepositoryOwnership data packageJson downloaded npmNano)
  = settled (checkRepositoryOwnership data packageJson downloaded' npmNano).
Proof.
  intros Hmanifest.
  unfold checkRepositoryOwnership, getAsync, perform. rewrite Hmanifest.
  destruct (strict_eq _ _); [reflexivity|].
  destruct (negb (truthy _) && negb (truthy _)); [reflexivity|].
  destruct (isEmpty _); [reflexivity|].
  destruct (get_outcome npmNano _) as [downloadedData|err]; simpl.
  - by destruct (0 <? _)%nat.
  - by destruct (matches "error" "not_found" err).
Qed.

Lemma verifier_ignores_downloader_witness :
  settled (checkRepositoryOwnership (data_of [mallory]) latest checkout
             (nano (Fulfilled jquery_data)))
  = settled (checkRepositoryOwnership (data_of [mallory]) latest tarball
               (nano (Fulfilled jquery_data))).
Proof. apply verifier_ignores_downloader. reflexivity. Defined.

Lemma shares_gives_same_maintainer (m m' : Maintainer) :
  shares_name_or_email m m' -> same_maintainer m m' = true.
Proof.
  intros [(name & Hm & Hm') | (email & Hm & Hm')]; apply same_maintainer_spec;
    [left | right]; congruence.
Qed.

Lemma same_maintainer_complete (m m' : Maintainer) :
  complete m ∨ complete m' ->
  same_maintainer m m' = true -> shares_name_or_email m m'.
Proof.
  intros Hcomplete [Hname | Hemail]%same_maintainer_spec.
  - left. destruct Hcomplete as [[[name Hn] _] | [[name Hn] _]];
      exists name; split; congruence.
  - right. destruct Hcomplete as [[_ [email He]] | [_ [email He]]];
      exists email; split; congruence.
Qed.

Lemma share_gives_overlap (data downloadedData : PackageData) :
  share_name_or_email data downloadedData ->
  maintainers_overlap data downloadedData.
Proof.
  intros (ms & ms' & m & m' & Hms & Hms' & Hm & Hm' & Hshare).
  exists m, m'. rewrite Hms, Hms'. simpl. split; [done|]. split; [done|].
  by apply same_maintainer_spec, shares_gives_same_maintainer.
Qed.

(** X20 — When the lookup is reached and the record fetched, a maintainer of
    the package that has its name, or its email, in common with a maintainer
    of the fetched record makes the verdict true, with no warning. *)
Theorem verifier_shared_field_gives_true (data : PackageData)
    (packageJson : object) (downloaded : Downloaded) (npmNano : Nano)
    (downloadedData : PackageData) :
  reaches_lookup packageJson downloaded = true ->
  get_outcome npmNano (lookup_prop "name" (dl_packageJson downloaded))
  = Fulfilled downloadedData ->
  share_name_or_email data downloadedData ->
  checkRepositoryOwnership data packageJson downloaded npmNano
  = ([RegistryGet (lookup_prop "name" (dl_packageJson downloaded))],
     Fulfilled true).
Proof.
  intros Hreach Hget Hshare%share_gives_overlap.
  rewrite (checkRepositoryOwnership_lookup _ _ _ _ Hreach), Hget.
  apply intersectionWith_maintainers in Hshare. by rewrite Hshare.
Qed.

Lemma alice_shared (ms : list Maintainer) :
  alice ∈ ms -> share_name_or_email (data_of ms) jquery_data.
Proof.
  intros Hin. exists ms, [dave; alice], alice, alice.
  split; [reflexivity|]. split; [reflexivity|]. split; [exact Hin|].
  split; [right; left|]. left. by exists "alice".
Qed.

Lemma verifier_shared_field_gives_true_witness :
  checkRepositoryOwnership (data_of [mallory; alice]) latest checkout
    (nano (Fulfilled jquery_data))
  = ([RegistryGet (VStr "jquery")], Fulfilled true).
Proof.
  apply (verifier_shared_field_gives_true (data_of [mallory; alice]) latest
           checkout (nano (Fulfilled jquery_data)) jquery_data eq_refl eq_refl).
  apply alice_shared. right; left.
Defined.

(** X21 — When the lookup is reached and the record fetched, and every
    maintainer entry of the package, or every maintainer entry of the fetched
    record, carries both a name and an email, the verdict is true if and only
    if some maintainer of the package and some maintainer of the fetched
    record have a name or an email in common. *)
Theorem verifier_complete_entries (data : PackageData) (packageJson : object)
    (downloaded : Downloaded) (npmNano : Nano) (downloadedData : PackageData) :
  reaches_lookup packageJson downloaded = true ->
  get_outcome npmNano (lookup_prop "name" (dl_packageJson downloaded))
  = Fulfilled downloadedData ->
  complete_entries data ∨ complete_entries downloadedData ->
  ∃ verdict,
    settled (checkRepositoryOwnership data packageJson downloaded npmNano)
    = Fulfilled verdict
    ∧ (verdict = true <-> share_name_or_email data downloadedData).
Proof.
  intros Hreach Hget Hcomplete.
  rewrite (checkRepositoryOwnership_lookup _ _ _ _ Hreach), Hget.
  assert (maintainers_overlap data downloadedData
          <-> share_name_or_email data downloadedData) as Hiff.
  { split; [|apply share_gives_overlap].
    intros (m & m' & Hm & Hm' & Hcmp).
    destruct (maintainers data) as [ms|] eqn:Hms;
      [|by apply elem_of_nil in Hm].
    destruct (maintainers downloadedData) as [ms'|] eqn:Hms';
      [|by apply elem_of_nil in Hm'].
    simpl in Hm, Hm'. exists ms, ms', m, m'.
    split; [exact Hms|]. split; [exact Hms'|]. split; [done|]. split; [done|].
    apply same_maintainer_complete; [|by apply same_maintainer_spec].
    destruct Hcomplete as [Hc|Hc].
    - left. specialize (Hc ms Hms). rewrite Forall_forall in Hc. by apply Hc.
    - right. specialize (Hc ms' Hms'). rewrite Forall_forall in Hc. by apply Hc. }
  destruct (0 <? _)%nat eqn:Hlen; eexists; (split; [reflexivity|]);
    rewrite <- Hiff, <- intersectionWith_maintainers, Hlen; done.
Qed.

Lemma verifier_complete_entries_witness :
  settled (checkRepositoryOwnership (data_of [mallory; alice]) latest checkout
             (nano (Fulfilled jquery_data)))
  = Fulfilled true.
Proof.
  destruct (verifier_complete_entries (data_of [mallory; alice]) latest checkout
              (nano (Fulfilled jquery_data)) jquery_data eq_refl eq_refl)
    as (verdict & Hsettled & Hiff).
  - right. intros ms [= <-].
    repeat constructor; by eexists.
  - rewrite Hsettled. f_equal. apply Hiff, alice_shared. right; left.
Defined.

(** * Further properties of the orchestrator *)

Lemma trace_start {B} (key : string) (o : outcome value) (f : entry -> promise B) :
  trace (then_ (start key o) f) = CollectorCall key :: trace (f (Some o)).
Proof. unfold start. by rewrite trace_then. Qed.

Lemma trace_start_if {B} (owner : bool) (key : string) (o : outcome value)
    (f : entry -> promise B) :
  trace (then_ (start_if owner key o) f)
  = (if owner then [CollectorCall key] else [])
    ++ trace (f (if owner then Some o else None)).
Proof.
  unfold start_if. destruct owner; [apply trace_start|].
  by rewrite then_resolve.
Qed.

Lemma trace_then_resolve {A B} (p : promise A) (g : A -> B) :
  trace (then_ p (fun a => resolve (g a))) = trace p.
Proof. destruct p as [tr [a|e]]; simpl; [apply app_nil_r|reflexivity]. Qed.

(** The aggregator logs the failed operations, in the order of the entries,
    and does nothing else. *)
Lemma promisePropsSettled_trace (entries : list (string * entry)) :
  trace (promisePropsSettled entries)
  = omap (fun kv => match kv.2 with
                    | Some (Rejected err) => Some (LogError kv.1 err)
                    | _ => None
                    end) entries.
Proof.
  induction entries as [|[k [[v0|err]|]] rest IH]; simpl; [reflexivity| | |exact IH].
  - rewrite trace_then.
    destruct (promisePropsSettled_settled rest) as (m & -> & _).
    rewrite IH. simpl. by rewrite app_nil_r.
  - destruct (promisePropsSettled rest) as [tr o]. simpl in *. by rewrite IH.
Qed.

Section orchestrator_effects.
Variables (cs : Collectors) (data : PackageData) (packageJson : object)
  (downloaded : Downloaded) (npmNano : Nano) (options : option Options).

(** X6 — Within one pass the verifier runs to completion first; then
    [metadata] and [npm] are called, [github] only with an owner verdict and
    [source] only for a registry tarball or an owner verdict, in this order;
    a collector that is not applicable is never called.  Last come the
    failure records of the applicable collectors that failed. *)
Theorem collect_trace (verdict : bool) :
  settled (checkRepositoryOwnership data packageJson downloaded npmNano)
  = Fulfilled verdict ->
  trace (collect cs data packageJson downloaded npmNano options)
  = trace (checkRepositoryOwnership data packageJson downloaded npmNano)
    ++ map CollectorCall (filter (fun key => applicable verdict downloaded key = true)
                            collector_keys)
    ++ failure_logs cs data packageJson downloaded npmNano options verdict.
Proof.
  intros Hverdict. unfold collect. rewrite trace_then, Hverdict. f_equal.
  rewrite trace_then_resolve. unfold mbind, promise_bind.
  rewrite !trace_start, !trace_start_if, promisePropsSettled_trace.
  unfold failure_logs, collector_keys, applicable, operation.
  destruct verdict, (String.eqb (dl_downloader downloaded) "npm"); reflexivity.
Qed.

(** X7 — When every applicable collector fails, the pass still resolves, with
    an empty result: not even the [metadata] key is guaranteed. *)
Theorem collect_all_failed (verdict : bool) :
  settled (checkRepositoryOwnership data packageJson downloaded npmNano)
  = Fulfilled verdict ->
  (∀ key, applicable verdict downloaded key = true ->
          ∃ err, operation cs data packageJson downloaded npmNano options key
                 = Some (Rejected err)) ->
  settled (collect cs data packageJson downloaded npmNano options) = Fulfilled ∅.
Proof.
  intros Hverdict Hfail.
  destruct (collect_settled cs data packageJson downloaded npmNano options
              verdict Hverdict) as (collected & -> & Hkeys).
  f_equal. apply map_empty. intros key.
  destruct (collected !! key) as [v|] eqn:Hv; [|reflexivity].
  apply Hkeys in Hv as (Happ & Hop & _).
  destruct (Hfail key Happ) as [err Herr]. congruence.
Qed.

(** X8 — [collect] fails exactly when the verifier fails, and then with the
    same reason: no collector can make it fail. *)
Theorem collect_rejected_iff (err : value) :
  settled (collect cs data packageJson downloaded npmNano options) = Rejected err
  <-> settled (checkRepositoryOwnership data packageJson downloaded npmNano)
      = Rejected err.
Proof.
  destruct (checkRepositoryOwnership data packageJson downloaded npmNano)
    as [tr [verdict|err']] eqn:Hv.
  - pose proof (collect_settled cs data packageJson downloaded npmNano options
                  verdict) as Hcollect.
    rewrite Hv in Hcollect. destruct (Hcollect eq_refl) as (collected & -> & _).
    simpl. done.
  - rewrite (collect_rejected cs data packageJson downloaded npmNano options
               tr err' Hv). simpl. split; intros [= ->]; reflexivity.
Qed.

End orchestrator_effects.

Lemma collect_all_failed_witness :
  settled (collect all_down (data_of [mallory]) latest checkout
             (nano (Fulfilled jquery_data)) None) = Fulfilled ∅.
Proof.
  apply (collect_all_failed all_down (data_of [mallory]) latest checkout
           (nano (Fulfilled jquery_data)) None false eq_refl).
  intros key. unfold applicable, operation. simpl.
  destruct (String.eqb key "metadata"); [by eexists|].
  destruct (String.eqb key "npm"); [by eexists|].
  destruct (String.eqb key "github"); [done|].
  destruct (String.eqb key "source"); done.
Defined.

Lemma collect_trace_witness :
  collector_calls
    (trace (collect github_down (data_of [mallory]) latest tarball
              (nano (Fulfilled jquery_data)) None))
  = ["metadata"; "npm"; "source"].
Proof.
  rewrite (collect_trace github_down (data_of [mallory]) latest tarball
             (nano (Fulfilled jquery_data)) None false eq_refl).
  reflexivity.
Defined.

(** * Further properties of the Package Directory Resolver *)

Section resolver_effects.
Variables (fs : FileSystem) (packageJson : object).

(** X10 — A manifest that cannot be read never fails the comparison: the
    directory is compared as if its manifest were [{}], so it matches only a
    package without a name.  A missing file ([ENOENT]) is passed over in
    silence; any other error is logged once, at debug level, with the
    file. *)
Theorem isSamePackage_read_failure (dir : string) (err : value) :
  load_outcome fs (manifest_file dir) = Rejected err ->
  isSamePackage fs packageJson dir
  = (LoadJsonFile (manifest_file dir)
     :: (if matches "code" "ENOENT" err then []
         else [LogDebug err (manifest_file dir) "Error reading package.json"]),
     Fulfilled (strict_eq (lookup_prop "name" packageJson) VUndefined)).
Proof.
  unfold manifest_file. intros Hload.
  unfold isSamePackage, loadJsonFile, perform. rewrite Hload. simpl.
  destruct (matches "code" "ENOENT" err); reflexivity.
Qed.

(** X11 — The comparison fails in one case only: the manifest was read and
    holds [null] (or [undefined]); the failure is the [TypeError] of reading
    its [name]. *)
Theorem isSamePackage_rejected_iff (dir : string) (reason : value) :
  settled (isSamePackage fs packageJson dir) = Rejected reason
  <-> ∃ v, load_outcome fs (manifest_file dir) = Fulfilled v
           ∧ nullish v = true ∧ reason = TypeError v "name".
Proof.
  unfold manifest_file, isSamePackage, loadJsonFile, perform.
  destruct (load_outcome fs _) as [v|err]; simpl.
  - destruct v; simpl;
      (split;
       [ intros H; try discriminate H; injection H as <-;
         eexists; repeat split; reflexivity
       | intros (v' & [= <-] & Hnull & ->); try discriminate Hnull;
         reflexivity ]).
  - destruct (matches "code" "ENOENT" err); simpl; split; try done;
      intros (v & ? & _); done.
Qed.

Lemma isSamePackage_fulfilled (dir : string) (isSame : bool) :
  settled (isSamePackage fs packageJson dir) = Fulfilled isSame ->
  isSame = same_name fs packageJson dir.
Proof.
  destruct (nullish (manifest_at fs dir)) eqn:Hnull.
  - unfold manifest_at in Hnull. fold (manifest_file dir) in Hnull.
    destruct (load_outcome fs (manifest_file dir)) as [v|err] eqn:Hload; [|done].
    assert (settled (isSamePackage fs packageJson dir) = Rejected (TypeError v "name"))
      as ->; [|done].
    apply isSamePackage_rejected_iff. by exists v.
  - rewrite (isSamePackage_settled fs packageJson dir Hnull). by intros [= <-].
Qed.

Lemma isSamePackage_loaded_files (dir : string) :
  loaded_files (trace (isSamePackage fs packageJson dir)) = [manifest_file dir].
Proof.
  unfold manifest_file, isSamePackage, loadJsonFile, perform.
  destruct (load_outcome fs _) as [v|err]; simpl.
  - destruct v; reflexivity.
  - destruct (matches "code" "ENOENT" err); reflexivity.
Qed.

Lemma search_sound (dirs : list string) (packageDir : option string) (c : string) :
  settled (reduce_from (search_step fs packageJson) dirs packageDir) = Fulfilled (Some c) ->
  packageDir = Some c ∨ (c ∈ dirs ∧ same_name fs packageJson c = true).
Proof.
  revert packageDir. induction dirs as [|d dirs IH]; intros packageDir; simpl.
  - intros [= ->]. by left.
  - rewrite settled_then. unfold search_step at 1.
    destruct (found packageDir).
    + simpl. intros [?|[? ?]]%IH; [by left|]. right. split; [by right|done].
    + rewrite settled_then.
      destruct (settled (isSamePackage fs packageJson d)) as [isSame|err] eqn:Hd;
        [|done].
      apply isSamePackage_fulfilled in Hd. simpl.
      intros [Hacc|[? ?]]%IH.
      * destruct isSame; [|done]. injection Hacc as <-.
        right. split; [left|done].
      * right. split; [by right|done].
Qed.

Lemma search_found_trace (dirs : list string) (packageDir : option string) :
  found packageDir = true ->
  trace (reduce_from (search_step fs packageJson) dirs packageDir) = [].
Proof.
  intros Hfound. induction dirs as [|d dirs IH]; simpl; [reflexivity|].
  unfold search_step at 1. rewrite Hfound, then_resolve. exact IH.
Qed.

Lemma search_loaded_files (dirs : list string) :
  Forall (fun d => nullish (manifest_at fs d) = false ∧ found (Some d) = true)
    dirs ->
  loaded_files (trace (reduce_from (search_step fs packageJson) dirs None))
  = map manifest_file (examined (same_name fs packageJson) dirs).
Proof.
  induction 1 as [|d dirs [Hd Hfound] _ IH]; simpl; [reflexivity|].
  unfold search_step at 1. simpl.
  rewrite trace_then, settled_then, (isSamePackage_settled _ _ d Hd). simpl.
  rewrite trace_then, (isSamePackage_settled _ _ d Hd). simpl.
  rewrite app_nil_r. unfold loaded_files. rewrite omap_app.
  fold (loaded_files (trace (isSamePackage fs packageJson d))).
  rewrite isSamePackage_loaded_files. simpl. f_equal.
  destruct (same_name fs packageJson d).
  - by rewrite search_found_trace.
  - exact IH.
Qed.

(** X12 — Whatever the tree, a directory the resolver returns is the root or
    a candidate of the enumeration whose manifest carries the name looked
    for. *)
Theorem findPackageDir_sound (dir : string) (packageDir : string) :
  settled (findPackageDir fs packageJson dir) = Fulfilled packageDir ->
  packageDir = dir
  ∨ (same_name fs packageJson packageDir = true
     ∧ ∃ files, glob_outcome fs "**/package.json" dir = Fulfilled files
                ∧ packageDir ∈ candidates dir files).
Proof.
  unfold findPackageDir. rewrite !settled_then.
  destruct (settled (isSamePackage fs packageJson dir)) as [[|]|err]; [| |done].
  { simpl. intros [= <-]. left. unfold or_dir, found. by destruct (negb _). }
  unfold lookForPackageDir, reduce, globby, perform.
  rewrite settled_then, settled_then. simpl.
  destruct (glob_outcome fs "**/package.json" dir) as [files|err]; [|done].
  simpl. fold (search_step fs packageJson).
  destruct (settled (reduce_from (search_step fs packageJson) (candidates dir files) None))
    as [[c|]|err] eqn:Hsearch; simpl; [| |done].
  - intros [= <-]. destruct (negb (String.eqb c "")); [|by left].
    apply search_sound in Hsearch as [?|[Hin Hsame]]; [done|].
    right. split; [done|]. by exists files.
  - intros [= <-]. by left.
Qed.

(** X13 — The resolver never returns the empty path for a non-empty root. *)
Theorem findPackageDir_nonempty (dir : string) (packageDir : string) :
  dir ≠ "" ->
  settled (findPackageDir fs packageJson dir) = Fulfilled packageDir ->
  packageDir ≠ "".
Proof.
  intros Hdir. unfold findPackageDir. rewrite settled_then.
  destruct (settled (then_ _ _)) as [[s|]|err]; simpl; [| |done].
  - intros [= <-]. destruct (String.eqb_spec s ""); simpl; done.
  - by intros [= <-].
Qed.

(** X14 — The search stops at the first match.  On a tree none of whose
    manifests holds [null], and whose root does not carry the name, the
    manifests read are the root's and then those of the candidates up to and
    including the first that matches; no manifest enumerated after it is
    read. *)
Theorem findPackageDir_loaded_files (dir : string) (files : list string) :
  nullish (manifest_at fs dir) = false ->
  same_name fs packageJson dir = false ->
  glob_outcome fs "**/package.json" dir = Fulfilled files ->
  Forall (fun d => nullish (manifest_at fs d) = false) (candidates dir files) ->
  loaded_files (trace (findPackageDir fs packageJson dir))
  = manifest_file dir
    :: map manifest_file
         (examined (same_name fs packageJson) (candidates dir files)).
Proof.
  intros Hroot Hsame Hglob Hall. unfold findPackageDir.
  rewrite trace_then_resolve, trace_then.
  rewrite (isSamePackage_settled _ _ dir Hroot), Hsame.
  unfold loaded_files. rewrite omap_app.
  fold (loaded_files (trace (isSamePackage fs packageJson dir))).
  rewrite isSamePackage_loaded_files. simpl. f_equal.
  unfold lookForPackageDir, reduce, globby, perform.
  rewrite trace_then, settled_then. simpl. rewrite Hglob. simpl.
  fold (search_step fs packageJson). apply search_loaded_files.
  rewrite Forall_forall in *. intros d Hd. split; [by apply Hall|].
  by eapply found_candidate.
Qed.

(** X15 — A failure of the enumeration is not covered by the fallback to the
    root: when the root does not match and [globby] is rejected, so is the
    resolver, with the same reason. *)
Theorem findPackageDir_glob_failure (dir : string) (err : value) :
  nullish (manifest_at fs dir) = false ->
  same_name fs packageJson dir = false ->
  glob_outcome fs "**/package.json" dir = Rejected err ->
  settled (findPackageDir fs packageJson dir) = Rejected err.
Proof.
  intros Hroot Hsame Hglob. unfold findPackageDir.
  rewrite !settled_then, (isSamePackage_settled _ _ dir Hroot), Hsame.
  unfold lookForPackageDir, reduce, globby, perform.
  rewrite settled_then, settled_then. simpl. by rewrite Hglob.
Qed.

End resolver_effects.

(** X16 — On a tree none of whose manifests holds [null] and whose
    enumeration succeeds, when the root does not carry the name the resolver
    returns the first candidate, in the order of the enumeration, whose
    manifest carries it, and the root when there is none. *)
Theorem findPackageDir_first_match (fs : FileSystem) (packageJson : object)
    (dir : string) (files : list string) :
  nullish (manifest_at fs dir) = false ->
  same_name fs packageJson dir = false ->
  glob_outcome fs "**/package.json" dir = Fulfilled files ->
  Forall (fun d => nullish (manifest_at fs d) = false) (candidates dir files) ->
  settled (findPackageDir fs packageJson dir)
  = Fulfilled
      (default dir (first_match (same_name fs packageJson) (candidates dir files))).
Proof. apply findPackageDir_settled. Qed.

Lemma monorepo_candidates_readable :
  Forall (fun d => nullish (manifest_at monorepo d) = false)
    (candidates "/tmp/repo" listing).
Proof. repeat constructor. Qed.

Lemma findPackageDir_first_match_witness :
  settled (findPackageDir monorepo foo_manifest "/tmp/repo")
  = Fulfilled "/tmp/repo/packages/foo"
  ∧ settled (findPackageDir monorepo [("name", VStr "bar")] "/tmp/repo")
    = Fulfilled "/tmp/repo".
Proof.
  split.
  - exact (findPackageDir_first_match monorepo foo_manifest "/tmp/repo" listing
             eq_refl eq_refl eq_refl monorepo_candidates_readable).
  - exact (findPackageDir_first_match monorepo [("name", VStr "bar")] "/tmp/repo"
             listing eq_refl eq_refl eq_refl
             monorepo_candidates_readable).
Defined.

Lemma isSamePackage_read_failure_witness :
  isSamePackage monorepo foo_manifest "/tmp/repo/packages/broken"
  = ([LoadJsonFile "/tmp/repo/packages/broken/package.json";
      LogDebug json_error "/tmp/repo/packages/broken/package.json"
        "Error reading package.json"],
     Fulfilled false)
  ∧ isSamePackage monorepo foo_manifest "/tmp/repo/packages/missing"
    = ([LoadJsonFile "/tmp/repo/packages/missing/package.json"], Fulfilled false).
Proof.
  split.
  - exact (isSamePackage_read_failure monorepo foo_manifest
             "/tmp/repo/packages/broken" json_error eq_refl).
  - exact (isSamePackage_read_failure monorepo foo_manifest
             "/tmp/repo/packages/missing" enoent eq_refl).
Defined.

Lemma findPackageDir_sound_witness :
  same_name monorepo foo_manifest "/tmp/repo/packages/foo" = true.
Proof.
  destruct (findPackageDir_sound monorepo foo_manifest "/tmp/repo"
              "/tmp/repo/packages/foo" eq_refl) as [Hroot|[Hsame _]].
  - discriminate Hroot.
  - exact Hsame.
Defined.

Lemma findPackageDir_nonempty_witness :
  "/tmp/repo/packages/foo" ≠ "".
Proof.
  apply (findPackageDir_nonempty monorepo foo_manifest "/tmp/repo").
  - discriminate.
  - reflexivity.
Defined.

Lemma findPackageDir_loaded_files_witness :
  loaded_files (trace (findPackageDir monorepo foo_manifest "/tmp/repo"))
  = ["/tmp/repo/package.json"; "/tmp/repo/packages/broken/package.json";
     "/tmp/repo/packages/foo/package.json"].
Proof.
  exact (findPackageDir_loaded_files monorepo foo_manifest "/tmp/repo" listing
           eq_refl eq_refl eq_refl monorepo_candidates_readable).
Defined.

Lemma findPackageDir_glob_failure_witness :
  settled (findPackageDir unreadable_tree foo_manifest "/tmp/repo")
  = Rejected (VObj [("code", VStr "EACCES"); ("syscall", VStr "scandir")]).
Proof.
  exact (findPackageDir_glob_failure unreadable_tree foo_manifest "/tmp/repo" _
           eq_refl eq_refl eq_refl).
Defined.

(** * Candidate directories and the files they stand for *)

Lemma append_cons (c : ascii) (s t : string) :
  String c s +:+ t = String c (s +:+ t).
Proof. reflexivity. Qed.

Lemma list_ascii_app (s t : string) :
  list_ascii_of_string (s +:+ t) = list_ascii_of_string s ++ list_ascii_of_string t.
Proof.
  induction s as [|c s IH]; [reflexivity|].
  rewrite append_cons. simpl. by rewrite IH.
Qed.

Lemma string_append_assoc (s t u : string) : (s +:+ t) +:+ u = s +:+ (t +:+ u).
Proof.
  induction s as [|c s IH]; [reflexivity|].
  rewrite !append_cons. by rewrite IH.
Qed.

Lemma string_of_list_app (l : list ascii) (t : string) :
  string_of_list_ascii (l ++ list_ascii_of_string t) = string_of_list_ascii l +:+ t.
Proof.
  induction l as [|c l IH]; simpl.
  - apply string_of_list_ascii_of_string.
  - by rewrite IH, append_cons.
Qed.

Section clean_paths.
Import NodePath.

Lemma segments_from_last (cur l : list ascii) :
  no_slash l ->
  segments_from cur l = [string_of_list_ascii (rev cur ++ l)].
Proof.
  intros Hl. revert cur. induction Hl as [|c l Hc _ IH]; intros cur; simpl.
  - by rewrite app_nil_r.
  - rewrite Hc, IH. simpl. by rewrite <- app_assoc.
Qed.

Lemma segments_from_next (cur l rest : list ascii) :
  no_slash l ->
  segments_from cur (l ++ slash :: rest)
  = string_of_list_ascii (rev cur ++ l) :: segments_from [] rest.
Proof.
  intros Hl. revert cur. induction Hl as [|c l Hc _ IH]; intros cur; simpl.
  - by rewrite app_nil_r.
  - rewrite Hc, IH. simpl. by rewrite <- app_assoc.
Qed.

Lemma segments_join (segs : list string) :
  segs ≠ [] -> Forall regular segs ->
  segments (join_segments segs) = segs.
Proof.
  intros Hne Hall. unfold segments.
  induction Hall as [|s segs (_ & _ & _ & Hs) Hall IH]; [done|].
  destruct segs as [|s' segs].
  - simpl. rewrite (segments_from_last [] _ Hs). simpl.
    by rewrite string_of_list_ascii_of_string.
  - change (join_segments (s :: s' :: segs))
      with (s +:+ "/" +:+ join_segments (s' :: segs)).
    rewrite list_ascii_app.
    change (list_ascii_of_string ("/" +:+ join_segments (s' :: segs)))
      with (slash :: list_ascii_of_string (join_segments (s' :: segs))).
    rewrite (segments_from_next [] _ _ Hs). simpl rev. simpl app.
    rewrite string_of_list_ascii_of_string. f_equal. by apply IH.
Qed.

Lemma normalize_step_regular (allowAboveRoot : bool) (stack : list string)
    (seg : string) :
  regular seg -> normalize_step allowAboveRoot stack seg = seg :: stack.
Proof.
  intros (H1 & H2 & H3 & _). unfold normalize_step.
  apply String.eqb_neq in H1, H2, H3. by rewrite H1, H2, H3.
Qed.

Lemma normalize_fold_regular (allowAboveRoot : bool) (segs stack : list string) :
  Forall regular segs ->
  fold_left (normalize_step allowAboveRoot) segs stack = rev segs ++ stack.
Proof.
  intros Hall. revert stack.
  induction Hall as [|s segs Hs _ IH]; intros stack; simpl; [reflexivity|].
  rewrite (normalize_step_regular _ _ _ Hs), IH. by rewrite <- app_assoc.
Qed.

Lemma join_segments_nonempty (segs : list string) :
  segs ≠ [] -> Forall regular segs -> join_segments segs ≠ "".
Proof.
  intros Hne Hall. destruct Hall as [|s segs (Hs & _) _]; [done|].
  destruct segs; simpl; [done|]. destruct s; [done|discriminate].
Qed.

Lemma join_segments_head (segs : list string) :
  segs ≠ [] -> Forall regular segs ->
  ∃ c rest, join_segments segs = String c rest ∧ is_slash c = false.
Proof.
  intros Hne Hall. destruct Hall as [|s segs (Hs & _ & _ & Hslash) _]; [done|].
  destruct s as [|c s]; [done|]. inversion Hslash as [|? ? Hc _]; subst.
  destruct segs; simpl; eauto.
Qed.

Lemma join_segments_app (ds ss : list string) :
  ds ≠ [] -> ss ≠ [] ->
  join_segments (ds ++ ss) = join_segments ds +:+ "/" +:+ join_segments ss.
Proof.
  intros Hds Hss. induction ds as [|d ds IH]; [done|].
  destruct ds as [|d' ds].
  - destruct ss; [done|]. reflexivity.
  - change (join_segments ((d :: d' :: ds) ++ ss))
      with (d +:+ "/" +:+ join_segments ((d' :: ds) ++ ss)).
    rewrite IH by done.
    change (join_segments (d :: d' :: ds))
      with (d +:+ "/" +:+ join_segments (d' :: ds)).
    by rewrite !string_append_assoc.
Qed.

Lemma ends_with_slash_join (prefix : string) (segs : list string) :
  segs ≠ [] -> Forall regular segs ->
  ends_with_slash (prefix +:+ join_segments segs) = false.
Proof.
  intros Hne Hall. revert prefix.
  induction Hall as [|s segs (Hs & _ & _ & Hslash) Hall IH]; [done|].
  intros prefix. destruct segs as [|s' segs].
  - simpl. unfold ends_with_slash. rewrite list_ascii_app, rev_app_distr.
    destruct (rev (list_ascii_of_string s)) as [|c l] eqn:Hrev.
    + apply (f_equal (@rev ascii)) in Hrev. rewrite rev_involutive in Hrev.
      simpl in Hrev. destruct s; done.
    + simpl. unfold no_slash in Hslash. rewrite Forall_forall in Hslash.
      apply Hslash.
      apply list_elem_of_In, in_rev. rewrite Hrev. left. reflexivity.
  - change (join_segments (s :: s' :: segs))
      with (s +:+ "/" +:+ join_segments (s' :: segs)).
    rewrite <- !string_append_assoc. by apply IH.
Qed.

(** A path made of regular segments, absolute or not, is its own normal
    form. *)
Lemma normalize_clean (absolute : bool) (segs : list string) :
  segs ≠ [] -> Forall regular segs ->
  normalize ((if absolute then "/" else "") +:+ join_segments segs)
  = (if absolute then "/" else "") +:+ join_segments segs.
Proof.
  intros Hne Hall.
  pose proof (join_segments_nonempty segs Hne Hall) as Hbody.
  destruct (join_segments_head segs Hne Hall) as (c & rest & Hhead & Hc).
  assert (normalizeString ((if absolute then "/" else "") +:+ join_segments segs)
            (negb absolute) = join_segments segs) as Hnorm.
  { unfold normalizeString.
    assert (fold_left (normalize_step (negb absolute))
              (segments ((if absolute then "/" else "") +:+ join_segments segs)) []
            = rev segs) as ->.
    { destruct absolute.
      - unfold segments.
        change (list_ascii_of_string ("/" +:+ join_segments segs))
          with (slash :: list_ascii_of_string (join_segments segs)).
        change (segments_from [] (slash :: list_ascii_of_string (join_segments segs)))
          with ("" :: segments (join_segments segs)).
        rewrite (segments_join segs Hne Hall). simpl.
        rewrite (normalize_fold_regular _ _ _ Hall). apply app_nil_r.
      - change ("" +:+ join_segments segs) with (join_segments segs).
        rewrite (segments_join segs Hne Hall).
        rewrite (normalize_fold_regular _ _ _ Hall). apply app_nil_r. }
    by rewrite rev_involutive. }
  unfold normalize.
  assert (starts_with_slash ((if absolute then "/" else "") +:+ join_segments segs)
          = absolute) as ->.
  { destruct absolute; [reflexivity|].
    change ("" +:+ join_segments segs) with (join_segments segs).
    rewrite Hhead. exact Hc. }
  rewrite Hnorm, (ends_with_slash_join _ segs Hne Hall).
  apply String.eqb_neq in Hbody. rewrite Hbody.
  assert (String.eqb ((if absolute then "/" else "") +:+ join_segments segs) ""
          = false) as ->.
  { apply String.eqb_neq, append_nonempty_r. by apply String.eqb_neq. }
  by destruct absolute.
Qed.

(** [dirname] undoes what [isSamePackage] appends to a directory. *)
Lemma dirname_manifest_file (c : ascii) (s : string) :
  is_slash c = false ->
  dirname (String c s +:+ "/package.json") = String c s.
Proof.
  intros Hc. unfold dirname. simpl list_ascii_of_string.
  rewrite list_ascii_app, rev_app_distr. simpl. rewrite Hc. simpl.
  by rewrite rev_involutive, string_of_list_ascii_of_string.
Qed.

(** X17 — For a root made of regular segments and a manifest matched by the
    glob at [sub/package.json], [sub] made of regular segments too, the
    candidate directory is [root/sub], and the manifest the search reads for
    this candidate is the very file the glob matched. *)
Theorem candidate_is_matched_directory (absolute : bool) (ds ss : list string) :
  ds ≠ [] -> ss ≠ [] -> Forall regular ds -> Forall regular ss ->
  candidates ((if absolute then "/" else "") +:+ join_segments ds)
    [join_segments ss +:+ "/package.json"]
  = [(if absolute then "/" else "") +:+ join_segments ds +:+ "/" +:+ join_segments ss]
  ∧ manifest_file
      (join ((if absolute then "/" else "") +:+ join_segments ds)
         (dirname (join_segments ss +:+ "/package.json")))
    = ((if absolute then "/" else "") +:+ join_segments ds)
      +:+ "/" +:+ (join_segments ss +:+ "/package.json").
Proof.
  intros Hds Hss Hall_ds Hall_ss.
  destruct (join_segments_head ss Hss Hall_ss) as (c & rest & Hhead & Hc).
  assert (join ((if absolute then "/" else "") +:+ join_segments ds)
            (dirname (join_segments ss +:+ "/package.json"))
          = (if absolute then "/" else "") +:+ join_segments ds +:+ "/"
            +:+ join_segments ss) as Hjoin.
  { rewrite Hhead, (dirname_manifest_file c rest Hc), <- Hhead.
    unfold join.
    assert (String.eqb ((if absolute then "/" else "") +:+ join_segments ds) ""
            = false) as ->.
    { apply String.eqb_neq. apply append_nonempty_r.
      by apply join_segments_nonempty. }
    assert (String.eqb (join_segments ss) "" = false) as ->.
    { apply String.eqb_neq. by apply join_segments_nonempty. }
    rewrite string_append_assoc, <- join_segments_app by done.
    apply normalize_clean.
    - by destruct ds.
    - by apply Forall_app.
  }
  split.
  - unfold candidates. simpl.
    assert (join_segments ss +:+ "/package.json" ≠ "package.json") as Hne.
    { intros Heq. apply (f_equal list_ascii_of_string) in Heq.
      rewrite list_ascii_app in Heq. apply (f_equal length) in Heq.
      rewrite length_app in Heq. simpl in Heq. lia. }
    rewrite filter_cons_True by done. simpl. by rewrite Hjoin.
  - rewrite Hjoin. unfold manifest_file. by rewrite !string_append_assoc.
Qed.

End clean_paths.

Lemma candidate_is_matched_directory_witness :
  candidates "/tmp/repo" ["packages/foo/package.json"] = ["/tmp/repo/packages/foo"].
Proof.
  refine (proj1 (candidate_is_matched_directory true ["tmp"; "repo"]
                   ["packages"; "foo"] _ _ _ _)); try discriminate;
    repeat constructor; try discriminate.
Defined.
